(** * The Python binding of the FTRL model (src/c/models/py_ftrl.cc)

    A shallow embedding of [py::Ftrl], the class that exposes the
    FTRL-Proximal engine [dt::Ftrl<T>] to Python: construction, [fit],
    [predict], [reset], the property getters and setters, and pickling.

    The methods are embedded as computations over the state of one
    [py::Ftrl] object.  A C++ exception is an outcome of its own, and the
    state it leaves behind is the state at the [throw].  Behaviour that C++
    leaves undefined (calling through a null [dtft], reading a tuple past
    its end) is a third outcome.

    Python floats and C doubles are kept as rationals: NaN, the infinities
    and rounding are outside this model. *)

From Stdlib Require Import List String ZArith NArith QArith Bool Lia.
Import ListNotations.

#[local] Set Warnings "-register-all".

Local Open Scope string_scope.
Local Open Scope list_scope.

(** ** Frames *)

(** Modelled from the spec: the storage type tags of the host frame engine
    (types.h is not among the sources).  The binding only names [FLOAT32]
    and [FLOAT64]; the other tags stand for the boolean, integer and string
    columns the spec lists. *)
Inductive SType : Type :=
| BOOL | INT32 | INT64 | FLOAT32 | FLOAT64 | STR32.

Definition SType_eqb (a b : SType) : bool :=
  match a, b with
  | BOOL, BOOL | INT32, INT32 | INT64, INT64
  | FLOAT32, FLOAT32 | FLOAT64, FLOAT64 | STR32, STR32 => true
  | _, _ => false
  end.

(** Modelled from the spec: a column of the host engine is a type tag and
    its values, row by row. *)
Record Column : Type := mkColumn {
  stype : SType;
  data : list Q
}.

(** Modelled from the spec: a frame exposes a row count and its columns;
    [ncols] is the size of the column vector. *)
Record DataTable : Type := mkDataTable {
  nrows : N;
  columns : list Column
}.

Definition ncols (dt : DataTable) : nat := List.length (columns dt).

(** ** Python objects *)

(** The values that cross the binding.  [PyUndefined] is the null
    [PyObject*] of an argument that was not supplied.  A frame object holds
    a [DataTable*], which may be null. *)
Inductive PyObj : Type :=
| PyUndefined
| PyNone
| PyBool (b : bool)
| PyInt (z : Z)
| PyFloat (q : Q)
| PyStr (s : string)
| PyList (items : list PyObj)
| PyTuple (items : list PyObj)
| PyNamedTuple (fields : list (string * PyObj))
| PyFrame (dt : option DataTable).

(** ** Exceptions and outcomes *)

(** One piece of a message assembled with [<<]. *)
Inductive piece : Type :=
| Txt (s : string)
| Num (n : N)
| Ty (t : SType).

Inductive Exception : Type :=
| TypeError (msg : list piece)
| ValueError (msg : list piece)
| AttributeError (msg : list piece).

Inductive Outcome (A : Type) : Type :=
| Returns (a : A)
| Throws (e : Exception)
| Undefined.

Arguments Returns {A} a.
Arguments Throws {A} e.
Arguments Undefined {A}.

Definition is_ValueError (e : Exception) : bool :=
  match e with ValueError _ => true | _ => false end.

(** ** Conversions of Python objects (python/obj.cc) *)

Definition is_undefined (o : PyObj) : bool :=
  match o with PyUndefined => true | _ => false end.

Definition is_none (o : PyObj) : bool :=
  match o with PyNone => true | _ => false end.

Definition is_none_or_undefined (o : PyObj) : bool :=
  is_none o || is_undefined o.

Definition is_frame (o : PyObj) : bool :=
  match o with PyFrame _ => true | _ => false end.

(** Modelled from the spec: [to_double] of the marshalling layer, which is
    not among the sources.  The spec's hyperparameters alpha, beta, lambda1
    and lambda2 are reals: a Python float or int converts, anything else is
    a type error. *)
Definition to_double (o : PyObj) : Outcome Q :=
  match o with
  | PyFloat q => Returns q
  | PyInt z => Returns (inject_Z z)
  | _ => Throws (TypeError [Txt "Expected a float"])
  end.

(** Modelled from the spec: [to_size_t] of the marshalling layer.  The
    spec's nbins and nepochs are counts: a Python int converts when it is
    not negative and fits a signed 64-bit integer. *)
Definition to_size_t (o : PyObj) : Outcome N :=
  match o with
  | PyInt z =>
      if (z <? 0)%Z then Throws (ValueError [Txt "Integer cannot be negative"])
      else if (2 ^ 63 <=? z)%Z then Throws (ValueError [Txt "Integer is too large"])
      else Returns (Z.to_N z)
  | _ => Throws (TypeError [Txt "Expected an integer"])
  end.

(** Modelled from the spec: [to_int32] of the marshalling layer. *)
Definition to_int32 (o : PyObj) : Outcome Z :=
  match o with
  | PyInt z =>
      if ((- 2 ^ 31 <=? z) && (z <? 2 ^ 31))%Z then Returns z
      else Throws (ValueError [Txt "Integer is too large"])
  | _ => Throws (TypeError [Txt "Expected an integer"])
  end.

(** Modelled from the spec: [to_bool_strict] of the marshalling layer; the
    spec's flags are booleans, only [True] and [False] convert. *)
Definition to_bool_strict (o : PyObj) : Outcome bool :=
  match o with
  | PyBool b => Returns b
  | _ => Throws (TypeError [Txt "Expected a boolean"])
  end.

(** Modelled from the spec: [to_otuple] of the marshalling layer.  A named
    tuple is a tuple of its field values in order. *)
Definition to_otuple (o : PyObj) : Outcome (list PyObj) :=
  match o with
  | PyTuple items => Returns items
  | PyNamedTuple fields => Returns (map snd fields)
  | _ => Throws (TypeError [Txt "Expected a tuple"])
  end.

(** Modelled from the spec: [to_pylist] of the marshalling layer. *)
Definition to_pylist (o : PyObj) : Outcome (list PyObj) :=
  match o with
  | PyList items => Returns items
  | PyTuple items => Returns items
  | _ => Throws (TypeError [Txt "Expected a list or a tuple"])
  end.

(** Modelled from the spec: [to_frame] of the marshalling layer.  [None]
    converts to the null pointer, which [fit] and [predict] test for. *)
Definition to_frame (o : PyObj) : Outcome (option DataTable) :=
  match o with
  | PyNone => Returns None
  | PyFrame dt => Returns dt
  | _ => Throws (TypeError [Txt "Expected a Frame"])
  end.

Fixpoint lookup_field (name : string) (fields : list (string * PyObj))
  : option PyObj :=
  match fields with
  | [] => None
  | (k, v) :: rest => if String.eqb k name then Some v else lookup_field name rest
  end.

(** Modelled from the spec: attribute access on a Python object.  Only the
    structured parameter bundle has named fields. *)
Definition get_attr (o : PyObj) (name : string) : Outcome PyObj :=
  match o with
  | PyNamedTuple fields =>
      match lookup_field name fields with
      | Some v => Returns v
      | None => Throws (AttributeError [Txt name])
      end
  | _ => Throws (AttributeError [Txt name])
  end.

(** [otuple::operator[]]: the element when the index is in range.  The
    read is unchecked, so an index past the end is undefined behaviour. *)
Definition otuple_get (t : list PyObj) (i : nat) : Outcome PyObj :=
  match nth_error t i with
  | Some v => Returns v
  | None => Undefined
  end.

(** [PKArgs::operator[]]: the bound argument, null when it was not
    supplied. *)
Definition PKArgs : Type := list PyObj.

Definition arg (args : PKArgs) (i : nat) : PyObj := nth i args PyUndefined.

(** ** Validation helpers (models/py_validator.h) *)

(** The comparisons with zero that the templated checks need of their
    value type. *)
Class Numeric (T : Type) : Type := {
  leb0 : T -> bool;
  ltb0 : T -> bool
}.

#[global] Instance Numeric_double : Numeric Q := {
  leb0 v := Qle_bool v 0;
  ltb0 v := negb (Qle_bool 0 v)
}.

#[global] Instance Numeric_uint64 : Numeric N := {
  leb0 v := (v <=? 0)%N;
  ltb0 v := (v <? 0)%N
}.

(** Modelled from the spec: [py::Validator::check_positive<T>], not among
    the sources; it rejects a value that is zero or negative.  The text of
    its message is not known. *)
Definition check_positive {T} `{Numeric T} (value : T) (o : PyObj) : Outcome unit :=
  if leb0 value then Throws (ValueError [Txt "Value should be positive"])
  else Returns tt.

(** Modelled from the spec: [py::Validator::check_not_negative<T>], not
    among the sources; it rejects a negative value. *)
Definition check_not_negative {T} `{Numeric T} (value : T) (o : PyObj) : Outcome unit :=
  if ltb0 value then Throws (ValueError [Txt "Value cannot be negative"])
  else Returns tt.

(** The two instantiations of the engine and of the templated helpers. *)
Inductive real_t : Type := c_float | c_double.

(** Whether a column of the given type holds elements of type [T]. *)
Definition holds_elements (T : real_t) (st : SType) : bool :=
  match T, st with
  | c_float, FLOAT32 | c_double, FLOAT64 => true
  | _, _ => false
  end.

(** Modelled from the spec: [py::Validator::has_negatives<T>], not among
    the sources; it scans the buffer of a column as an array of [T] and
    tells whether an element is negative.  Over a column whose elements
    are of type [T] that is a test on the values of the column.  Over any
    other column the buffer is read through a pointer of the wrong type,
    and past its end for [double] over float32: C++ leaves that undefined,
    and what it yields does not follow from the values.  A column without
    rows is not read at all. *)
Definition has_negatives (T : real_t) (col : Column) : Outcome bool :=
  match data col with
  | [] => Returns false
  | _ :: _ =>
      if holds_elements T (stype col)
      then Returns (existsb (fun v => negb (Qle_bool 0 v)) (data col))
      else Undefined
  end.

(** The conversion of [static_cast<double>] applied to a 64-bit count. *)
Definition double_of_uint64 (n : N) : Q := inject_Z (Z.of_N n).

(** ** The engine [dt::Ftrl<T>] (models/ftrl.h)

    The engine is not among the sources.  Its state and its accessors are
    modelled from the spec; its numeric kernels (training, prediction, the
    normalisation of importances) and the default hyperparameters are taken
    as given by the section that embeds the binding. *)
Module dt.

(** The hyperparameters, in the order of the spec's data model. *)
Record FtrlParams : Type := mkFtrlParams {
  alpha : Q;
  beta : Q;
  lambda1 : Q;
  lambda2 : Q;
  nbins : N;
  nepochs : N;
  interactions : bool;
  double_precision : bool
}.

(** Modelled from the spec: the state of an engine.  [real] is the
    instantiation chosen at construction; the weight and importance
    tables are unallocated in an untrained model; [dt_X_ncols] is the
    training column count recorded at fit time and [colnames_hashes] the
    hashes of the training columns. *)
Record Ftrl : Type := mkFtrl {
  real : real_t;
  params : FtrlParams;
  dt_model : option DataTable;
  dt_fi : option DataTable;
  model_trained : bool;
  dt_X_ncols : nat;
  colnames_hashes : list N
}.

(** Modelled from the spec: a model starts untrained, all arrays
    unallocated. *)
Definition new (T : real_t) (p : FtrlParams) : Ftrl :=
  mkFtrl T p None None false 0 [].

Definition is_trained (d : Ftrl) : bool := model_trained d.

(** Modelled from the spec: [reset] goes back to the untrained state
    without touching the hyperparameters. *)
Definition reset (d : Ftrl) : Ftrl := new (real d) (params d).

(** Modelled from the spec: the model setter of the engine installs the
    weight table; a model whose weights were set counts as trained. *)
Definition set_model (t : DataTable) (d : Ftrl) : Ftrl :=
  mkFtrl (real d) (params d) (Some t) (dt_fi d) true
         (dt_X_ncols d) (colnames_hashes d).

Definition set_fi (t : DataTable) (d : Ftrl) : Ftrl :=
  mkFtrl (real d) (params d) (dt_model d) (Some t) (model_trained d)
         (dt_X_ncols d) (colnames_hashes d).

Definition get_model (d : Ftrl) : option DataTable := dt_model d.

Definition get_dt_X_ncols (d : Ftrl) : nat := dt_X_ncols d.

Definition get_colnames_hashes (d : Ftrl) : list N := colnames_hashes d.

Definition get_alpha (d : Ftrl) : Q := alpha (params d).
Definition get_beta (d : Ftrl) : Q := beta (params d).
Definition get_lambda1 (d : Ftrl) : Q := lambda1 (params d).
Definition get_lambda2 (d : Ftrl) : Q := lambda2 (params d).
Definition get_nbins (d : Ftrl) : N := nbins (params d).
Definition get_nepochs (d : Ftrl) : N := nepochs (params d).
Definition get_interactions (d : Ftrl) : bool := interactions (params d).
Definition get_double_precision (d : Ftrl) : bool :=
  double_precision (params d).

Definition with_params (p : FtrlParams) (d : Ftrl) : Ftrl :=
  mkFtrl (real d) p (dt_model d) (dt_fi d) (model_trained d)
         (dt_X_ncols d) (colnames_hashes d).

(** Assignment to one member of a [FtrlParams] value. *)
Definition with_alpha (v : Q) (p : FtrlParams) : FtrlParams :=
  mkFtrlParams v (beta p) (lambda1 p) (lambda2 p) (nbins p) (nepochs p)
               (interactions p) (double_precision p).

Definition with_beta (v : Q) (p : FtrlParams) : FtrlParams :=
  mkFtrlParams (alpha p) v (lambda1 p) (lambda2 p) (nbins p) (nepochs p)
               (interactions p) (double_precision p).

Definition with_lambda1 (v : Q) (p : FtrlParams) : FtrlParams :=
  mkFtrlParams (alpha p) (beta p) v (lambda2 p) (nbins p) (nepochs p)
               (interactions p) (double_precision p).

Definition with_lambda2 (v : Q) (p : FtrlParams) : FtrlParams :=
  mkFtrlParams (alpha p) (beta p) (lambda1 p) v (nbins p) (nepochs p)
               (interactions p) (double_precision p).

Definition with_nbins (v : N) (p : FtrlParams) : FtrlParams :=
  mkFtrlParams (alpha p) (beta p) (lambda1 p) (lambda2 p) v (nepochs p)
               (interactions p) (double_precision p).

Definition with_nepochs (v : N) (p : FtrlParams) : FtrlParams :=
  mkFtrlParams (alpha p) (beta p) (lambda1 p) (lambda2 p) (nbins p) v
               (interactions p) (double_precision p).

Definition with_interactions (v : bool) (p : FtrlParams) : FtrlParams :=
  mkFtrlParams (alpha p) (beta p) (lambda1 p) (lambda2 p) (nbins p)
               (nepochs p) v (double_precision p).

Definition with_double_precision (v : bool) (p : FtrlParams) : FtrlParams :=
  mkFtrlParams (alpha p) (beta p) (lambda1 p) (lambda2 p) (nbins p)
               (nepochs p) (interactions p) v.

(** Modelled from the spec: the hyperparameter setters of the engine
    store the value they are given. *)
Definition set_alpha (v : Q) (d : Ftrl) : Ftrl :=
  with_params (with_alpha v (params d)) d.

Definition set_beta (v : Q) (d : Ftrl) : Ftrl :=
  with_params (with_beta v (params d)) d.

Definition set_lambda1 (v : Q) (d : Ftrl) : Ftrl :=
  with_params (with_lambda1 v (params d)) d.

Definition set_lambda2 (v : Q) (d : Ftrl) : Ftrl :=
  with_params (with_lambda2 v (params d)) d.

Definition set_nbins (v : N) (d : Ftrl) : Ftrl :=
  with_params (with_nbins v (params d)) d.

Definition set_nepochs (v : N) (d : Ftrl) : Ftrl :=
  with_params (with_nepochs v (params d)) d.

Definition set_interactions (v : bool) (d : Ftrl) : Ftrl :=
  with_params (with_interactions v (params d)) d.

End dt.

(** ** The binding [py::Ftrl] *)
Module py.

(** Modelled from the spec: the regression type tag (models/py_ftrl.h is
    not among the sources), numbered in the order the spec lists it. *)
Inductive RegType : Type := NONE | BINOMIAL | MULTINOMIAL.

Definition RegType_to_int32 (r : RegType) : Z :=
  match r with NONE => 0 | BINOMIAL => 1 | MULTINOMIAL => 2 end.

Definition RegType_of_int32 (z : Z) : option RegType :=
  if (z =? 0)%Z then Some NONE
  else if (z =? 1)%Z then Some BINOMIAL
  else if (z =? 2)%Z then Some MULTINOMIAL
  else None.

(** The members of a [py::Ftrl] object.  [dtft] is the pointer to the
    engine, [None] when null; [labels] is [None] once the list was
    released. *)
Record Ftrl : Type := mkFtrl {
  dtft : option dt.Ftrl;
  labels : option (list PyObj);
  reg_type : RegType;
  feature_names : option (list string)
}.

(** *** Computations over the object *)

Definition M (A : Type) : Type := Ftrl -> Outcome A * Ftrl.

Definition ret {A} (a : A) : M A := fun self => (Returns a, self).

Definition bind {A B} (c : M A) (k : A -> M B) : M B :=
  fun self =>
    match c self with
    | (Returns a, self') => k a self'
    | (Throws e, self') => (Throws e, self')
    | (Undefined, self') => (Undefined, self')
    end.

Definition throw {A} (e : Exception) : M A := fun self => (Throws e, self).

Definition undefined {A} : M A := fun self => (Undefined, self).

(** A conversion or a check that does not touch the object. *)
Definition lift {A} (o : Outcome A) : M A := fun self => (o, self).

Declare Scope ftrl_scope.
Delimit Scope ftrl_scope with ftrl.
Notation "x <- c ;; k" := (bind c (fun x => k))
  (at level 61, c at next level, right associativity) : ftrl_scope.
Notation "c ;; k" := (bind c (fun _ => k))
  (at level 61, right associativity) : ftrl_scope.
Local Open Scope ftrl_scope.

(** [dtft->f()] for a method that reads the engine; calling through a
    null pointer is undefined. *)
Definition dtft_get {A} (f : dt.Ftrl -> A) : M A :=
  fun self =>
    match dtft self with
    | Some d => (Returns (f d), self)
    | None => (Undefined, self)
    end.

(** [dtft->f(...)] for a method that updates the engine. *)
Definition dtft_do (f : dt.Ftrl -> dt.Ftrl) : M unit :=
  fun self =>
    match dtft self with
    | Some d =>
        (Returns tt,
         mkFtrl (Some (f d)) (labels self) (reg_type self) (feature_names self))
    | None => (Undefined, self)
    end.

(** [dtft->f(...)] for a method that updates the engine and may throw. *)
Definition dtft_call {A} (f : dt.Ftrl -> Outcome A * dt.Ftrl) : M A :=
  fun self =>
    match dtft self with
    | Some d =>
        let (r, d') := f d in
        (r, mkFtrl (Some d') (labels self) (reg_type self) (feature_names self))
    | None => (Undefined, self)
    end.

Definition assign_dtft (v : option dt.Ftrl) : M unit :=
  fun self =>
    (Returns tt, mkFtrl v (labels self) (reg_type self) (feature_names self)).

Definition assign_labels (v : option (list PyObj)) : M unit :=
  fun self =>
    (Returns tt, mkFtrl (dtft self) v (reg_type self) (feature_names self)).

Definition assign_reg_type (v : RegType) : M unit :=
  fun self =>
    (Returns tt, mkFtrl (dtft self) (labels self) v (feature_names self)).

Definition assign_feature_names (v : option (list string)) : M unit :=
  fun self =>
    (Returns tt, mkFtrl (dtft self) (labels self) (reg_type self) v).

Definition read_reg_type : M RegType := fun self => (Returns (reg_type self), self).

Definition read_labels : M (option (list PyObj)) :=
  fun self => (Returns (labels self), self).

(** [py::otuple t(n)] and [t.set(i, v)]. *)
Definition otuple_new (n : nat) : list PyObj := repeat PyUndefined n.

Fixpoint otuple_set (t : list PyObj) (i : nat) (v : PyObj) : list PyObj :=
  match t, i with
  | [], _ => []
  | _ :: rest, O => v :: rest
  | x :: rest, S j => x :: otuple_set rest j v
  end.

Section Binding.

(** What the binding takes from the engine without this development
    looking inside: the default-constructed [dt::FtrlParams], the
    training entry point (it updates the engine and may throw), the
    prediction kernel (the spec gives it as a function of the weights
    and the frame that leaves the engine unchanged) and the
    normalisation that [get_fi] applies by default. *)
Variable default_params : dt.FtrlParams.
Variable dt_dispatch_fit :
  DataTable -> DataTable -> dt.Ftrl -> Outcome unit * dt.Ftrl.
Variable dt_predict : DataTable -> dt.Ftrl -> DataTable.
Variable normalize_fi : DataTable -> DataTable.

(** Modelled from the spec: [dt::Ftrl<T>::get_fi(normalize)], null
    while no importances are allocated. *)
Definition dt_get_fi (normalize : bool) (d : dt.Ftrl) : option DataTable :=
  match dt.dt_fi d with
  | Some t => Some (if normalize then normalize_fi t else t)
  | None => None
  end.

(** *** [.labels] *)

Definition get_labels : M PyObj :=
  l <- read_labels ;;
  ret (match l with Some items => PyList items | None => PyUndefined end).

Definition set_labels (py_labels : PyObj) : M unit :=
  labels_in <- lift (to_pylist py_labels) ;;
  let nlabels := List.length labels_in in
  if (nlabels =? 1)%nat then
    throw (ValueError [Txt "List of labels can not have one element"])
  else
    (* This ensures that we always have at least one classifier *)
    let labels_in :=
      if (nlabels =? 0)%nat then labels_in ++ [PyStr "target"] else labels_in in
    assign_labels (Some labels_in).

(** *** [__init__] *)

Definition m__init__ (args : PKArgs) : M unit :=
  assign_dtft None ;;
  let ftrl_params := default_params in
  let defined_params := negb (is_none_or_undefined (arg args 0)) in
  let defined_labels := negb (is_none_or_undefined (arg args 1)) in
  let defined_alpha := negb (is_none_or_undefined (arg args 2)) in
  let defined_beta := negb (is_none_or_undefined (arg args 3)) in
  let defined_lambda1 := negb (is_none_or_undefined (arg args 4)) in
  let defined_lambda2 := negb (is_none_or_undefined (arg args 5)) in
  let defined_nbins := negb (is_none_or_undefined (arg args 6)) in
  let defined_nepochs := negb (is_none_or_undefined (arg args 7)) in
  let defined_interactions := negb (is_none_or_undefined (arg args 8)) in
  let defined_double_precision := negb (is_none_or_undefined (arg args 9)) in
  ftrl_params <-
    (if defined_params then
       if defined_alpha || defined_beta || defined_lambda1 || defined_lambda2
          || defined_nbins || defined_nepochs || defined_interactions
          || defined_double_precision
       then
         throw (TypeError
           [Txt "You can either pass all the parameters with ";
            Txt "`params` or any of the individual parameters with `alpha`, ";
            Txt "`beta`, `lambda1`, `lambda2`, `nbins`, `nepochs`, ";
            Txt "`interactions` or `double_precision` to Ftrl constructor, ";
            Txt "but not both at the same time"])
       else
         _ <- lift (to_otuple (arg args 0)) ;;
         let py_params := arg args 0 in
         py_alpha <- lift (get_attr py_params "alpha") ;;
         py_beta <- lift (get_attr py_params "beta") ;;
         py_lambda1 <- lift (get_attr py_params "lambda1") ;;
         py_lambda2 <- lift (get_attr py_params "lambda2") ;;
         py_nbins <- lift (get_attr py_params "nbins") ;;
         py_nepochs <- lift (get_attr py_params "nepochs") ;;
         py_interactions <- lift (get_attr py_params "interactions") ;;
         py_double_precision <- lift (get_attr py_params "double_precision") ;;
         v_alpha <- lift (to_double py_alpha) ;;
         v_beta <- lift (to_double py_beta) ;;
         v_lambda1 <- lift (to_double py_lambda1) ;;
         v_lambda2 <- lift (to_double py_lambda2) ;;
         v_nbins <- lift (to_size_t py_nbins) ;;
         v_nepochs <- lift (to_size_t py_nepochs) ;;
         v_interactions <- lift (to_bool_strict py_interactions) ;;
         v_double_precision <- lift (to_bool_strict py_double_precision) ;;
         let ftrl_params :=
           dt.mkFtrlParams v_alpha v_beta v_lambda1 v_lambda2 v_nbins
                           v_nepochs v_interactions v_double_precision in
         lift (check_positive (dt.alpha ftrl_params) py_alpha) ;;
         lift (check_not_negative (dt.beta ftrl_params) py_beta) ;;
         lift (check_not_negative (dt.lambda1 ftrl_params) py_lambda1) ;;
         lift (check_not_negative (dt.lambda2 ftrl_params) py_lambda2) ;;
         lift (check_not_negative (double_of_uint64 (dt.nbins ftrl_params))
                                  py_nbins) ;;
         ret ftrl_params
     else
       ftrl_params <-
         (if defined_alpha then
            v <- lift (to_double (arg args 2)) ;;
            lift (check_positive v (arg args 2)) ;;
            ret (dt.with_alpha v ftrl_params)
          else ret ftrl_params) ;;
       ftrl_params <-
         (if defined_beta then
            v <- lift (to_double (arg args 3)) ;;
            lift (check_not_negative v (arg args 3)) ;;
            ret (dt.with_beta v ftrl_params)
          else ret ftrl_params) ;;
       ftrl_params <-
         (if defined_lambda1 then
            v <- lift (to_double (arg args 4)) ;;
            lift (check_not_negative v (arg args 4)) ;;
            ret (dt.with_lambda1 v ftrl_params)
          else ret ftrl_params) ;;
       ftrl_params <-
         (if defined_lambda2 then
            v <- lift (to_double (arg args 5)) ;;
            lift (check_not_negative v (arg args 5)) ;;
            ret (dt.with_lambda2 v ftrl_params)
          else ret ftrl_params) ;;
       ftrl_params <-
         (if defined_nbins then
            v <- lift (to_size_t (arg args 6)) ;;
            lift (check_positive v (arg args 6)) ;;
            ret (dt.with_nbins v ftrl_params)
          else ret ftrl_params) ;;
       ftrl_params <-
         (if defined_nepochs then
            v <- lift (to_size_t (arg args 7)) ;;
            ret (dt.with_nepochs v ftrl_params)
          else ret ftrl_params) ;;
       ftrl_params <-
         (if defined_interactions then
            v <- lift (to_bool_strict (arg args 8)) ;;
            ret (dt.with_interactions v ftrl_params)
          else ret ftrl_params) ;;
       (if defined_double_precision then
          v <- lift (to_bool_strict (arg args 9)) ;;
          ret (dt.with_double_precision v ftrl_params)
        else ret ftrl_params)) ;;
  (if defined_labels then set_labels (arg args 1)
   else set_labels (PyList [])) ;;
  (if dt.double_precision ftrl_params
   then assign_dtft (Some (dt.new c_double ftrl_params))
   else assign_dtft (Some (dt.new c_float ftrl_params))) ;;
  assign_reg_type NONE.

(** *** [fit] *)

Definition fit (args : PKArgs) : M unit :=
  if is_undefined (arg args 0) then
    throw (ValueError [Txt "Training frame parameter is missing"])
  else if is_undefined (arg args 1) then
    throw (ValueError [Txt "Target frame parameter is missing"])
  else
    dt_X <- lift (to_frame (arg args 0)) ;;
    dt_y <- lift (to_frame (arg args 1)) ;;
    match dt_X, dt_y with
    | Some X, Some y =>
        if (ncols X =? 0)%nat then
          throw (ValueError [Txt "Training frame must have at least one column"])
        else if (nrows X =? 0)%N then
          throw (ValueError [Txt "Training frame cannot be empty"])
        else if negb (ncols y =? 1)%nat then
          throw (ValueError [Txt "Target frame must have exactly one column"])
        else if negb (nrows X =? nrows y)%N then
          throw (ValueError [Txt "Target column must have the same number of rows ";
                             Txt "as the training frame"])
        else dtft_call (dt_dispatch_fit X y)
    | _, _ => ret tt
    end.

(** *** [predict] *)

Definition predict (args : PKArgs) : M PyObj :=
  if is_undefined (arg args 0) then
    throw (ValueError [Txt "Frame to make predictions for is missing"])
  else
    dt_X <- lift (to_frame (arg args 0)) ;;
    match dt_X with
    | None => ret PyNone
    | Some X =>
        trained <- dtft_get dt.is_trained ;;
        if negb trained then
          throw (ValueError [Txt "Cannot make any predictions, train or set ";
                             Txt "the model first"])
        else
          n <- dtft_get dt.get_dt_X_ncols ;;
          if negb (ncols X =? n)%nat && negb (n =? 0)%nat then
            throw (ValueError
              [Txt "Can only predict on a frame that has "; Num (N.of_nat n);
               Txt " column"; Txt (if (n =? 1)%nat then "" else "s");
               Txt ", i.e. has the same number of features as ";
               Txt "was used for model training"])
          else
            dt_p <- dtft_get (dt_predict X) ;;
            ret (PyFrame (Some dt_p))
    end.

Definition reset_feature_names : M unit := assign_feature_names None.

(** *** [reset] *)

Definition reset (args : PKArgs) : M unit :=
  assign_reg_type NONE ;;
  dtft_do dt.reset.

(** *** [.model] *)

Definition get_model : M PyObj :=
  trained <- dtft_get dt.is_trained ;;
  if trained then
    dt_model <- dtft_get dt.get_model ;;
    ret (PyFrame dt_model)
  else ret PyNone.

(** The body of the column loop of [set_model], from column [i] on. *)
Fixpoint set_model_columns (dt_model : DataTable) (stype0 : SType)
         (has_negatives0 : Column -> Outcome bool) (i : nat) (cols : list Column)
  : M unit :=
  match cols with
  | [] => ret tt
  | col :: rest =>
      let c_stype := stype col in
      if negb (SType_eqb (stype col) stype0) then
        throw (ValueError
          [Txt "Column "; Num (N.of_nat i); Txt " in the model frame should ";
           Txt "have a type of "; Ty stype0; Txt ", whereas your ";
           Txt "frame has the following column type: "; Ty c_stype])
      else
        (* (i % 2) && has_negatives(col): the column is scanned only when
           its index is odd *)
        negative <- (if negb (i mod 2 =? 0)%nat then lift (has_negatives0 col)
                     else ret false) ;;
        if negative then
          throw (ValueError
            [Txt "Column "; Num (N.of_nat i); Txt " cannot have negative values"])
        else
          dtft_do (dt.set_model dt_model) ;;
          set_model_columns dt_model stype0 has_negatives0 (S i) rest
  end.

Definition set_model (model : PyObj) : M unit :=
  (* Reset model if it was assigned `None` in Python *)
  if is_none model then
    assign_reg_type NONE ;;
    dtft_do dt.reset
  else
    f <- lift (to_frame model) ;;
    match f with
    | None => undefined
    | Some dt_model =>
        nbins <- dtft_get dt.get_nbins ;;
        if negb (nrows dt_model =? nbins)%N
           || negb (ncols dt_model mod 2 =? 0)%nat
        then
          throw (ValueError
            [Txt "Model frame must have "; Num nbins;
             Txt " rows, and an even number of columns, ";
             Txt "whereas your frame has ";
             Num (nrows dt_model); Txt " row";
             Txt (if (nrows dt_model =? 1)%N then "" else "s");
             Txt " and ";
             Num (N.of_nat (ncols dt_model)); Txt " column";
             Txt (if (ncols dt_model =? 1)%nat then "" else "s")])
        else
          double_precision <- dtft_get dt.get_double_precision ;;
          let stype0 := if double_precision then FLOAT32 else FLOAT64 in
          let has_negatives0 :=
            if double_precision then has_negatives c_double
            else has_negatives c_float in
          set_model_columns dt_model stype0 has_negatives0 0 (columns dt_model)
    end.

(** *** [.fi] *)

Definition get_fi : M PyObj :=
  trained <- dtft_get dt.is_trained ;;
  if trained then
    (* If model was trained, return feature importance info. *)
    dt_fi <- dtft_get (dt_get_fi true) ;;
    ret (PyFrame dt_fi)
  else
    (* If model was not trained, return `None`. *)
    ret PyNone.

Definition get_fi_tuple : M PyObj :=
  trained <- dtft_get dt.is_trained ;;
  if trained then
    let fi := otuple_new 1 in
    dt_fi <- dtft_get (dt_get_fi false) ;;
    ret (PyTuple (otuple_set fi 0 (PyFrame dt_fi)))
  else ret PyNone.

(** *** [.colname_hashes] *)

(** The loop that fills the tuple: [count] elements from index [i] on.
    [colname_hashes[i]] is an unchecked vector read. *)
Fixpoint colname_hashes_fill (colname_hashes : list N) (t : list PyObj)
         (i count : nat) : Outcome (list PyObj) :=
  match count with
  | O => Returns t
  | S count' =>
      match nth_error colname_hashes i with
      | Some h =>
          colname_hashes_fill colname_hashes
            (otuple_set t i (PyInt (Z.of_N h))) (S i) count'
      | None => Undefined
      end
  end.

Definition get_colname_hashes : M PyObj :=
  trained <- dtft_get dt.is_trained ;;
  if trained then
    n <- dtft_get dt.get_dt_X_ncols ;;
    let py_colname_hashes := otuple_new n in
    colname_hashes <- dtft_get dt.get_colnames_hashes ;;
    t <- lift (colname_hashes_fill colname_hashes py_colname_hashes 0 n) ;;
    ret (PyTuple t)
  else ret PyNone.

(** *** The hyperparameters *)

Definition get_alpha : M PyObj := v <- dtft_get dt.get_alpha ;; ret (PyFloat v).

Definition set_alpha (py_alpha : PyObj) : M unit :=
  alpha <- lift (to_double py_alpha) ;;
  lift (check_positive alpha py_alpha) ;;
  dtft_do (dt.set_alpha alpha).

Definition get_beta : M PyObj := v <- dtft_get dt.get_beta ;; ret (PyFloat v).

Definition set_beta (py_beta : PyObj) : M unit :=
  beta <- lift (to_double py_beta) ;;
  lift (check_not_negative beta py_beta) ;;
  dtft_do (dt.set_beta beta).

Definition get_lambda1 : M PyObj := v <- dtft_get dt.get_lambda1 ;; ret (PyFloat v).

Definition set_lambda1 (py_lambda1 : PyObj) : M unit :=
  lambda1 <- lift (to_double py_lambda1) ;;
  lift (check_not_negative lambda1 py_lambda1) ;;
  dtft_do (dt.set_lambda1 lambda1).

Definition get_lambda2 : M PyObj := v <- dtft_get dt.get_lambda2 ;; ret (PyFloat v).

Definition set_lambda2 (py_lambda2 : PyObj) : M unit :=
  lambda2 <- lift (to_double py_lambda2) ;;
  lift (check_not_negative lambda2 py_lambda2) ;;
  dtft_do (dt.set_lambda2 lambda2).

Definition get_nbins : M PyObj :=
  v <- dtft_get dt.get_nbins ;; ret (PyInt (Z.of_N v)).

Definition set_nbins (py_nbins : PyObj) : M unit :=
  trained <- dtft_get dt.is_trained ;;
  if trained then
    throw (ValueError [Txt "Cannot set `nbins` for a trained model, ";
                       Txt "reset this model or create a new one"])
  else
    nbins <- lift (to_size_t py_nbins) ;;
    lift (check_positive nbins py_nbins) ;;
    dtft_do (dt.set_nbins nbins).

Definition get_nepochs : M PyObj :=
  v <- dtft_get dt.get_nepochs ;; ret (PyInt (Z.of_N v)).

Definition set_nepochs (py_nepochs : PyObj) : M unit :=
  nepochs <- lift (to_size_t py_nepochs) ;;
  dtft_do (dt.set_nepochs nepochs).

Definition get_interactions : M PyObj :=
  v <- dtft_get dt.get_interactions ;; ret (PyBool v).

Definition set_interactions (py_interactions : PyObj) : M unit :=
  interactions <- lift (to_bool_strict py_interactions) ;;
  dtft_do (dt.set_interactions interactions).

Definition get_double_precision : M PyObj :=
  v <- dtft_get dt.get_double_precision ;; ret (PyBool v).

Definition set_double_precision (py_double_precision : PyObj) : M unit :=
  double_precision <- lift (to_bool_strict py_double_precision) ;;
  dtft_do (dt.set_interactions double_precision).

(** *** [.params] *)

Definition get_params_namedtuple : M PyObj :=
  v0 <- get_alpha ;;
  v1 <- get_beta ;;
  v2 <- get_lambda1 ;;
  v3 <- get_lambda2 ;;
  v4 <- get_nbins ;;
  v5 <- get_nepochs ;;
  v6 <- get_interactions ;;
  v7 <- get_double_precision ;;
  ret (PyNamedTuple
         [("alpha", v0); ("beta", v1); ("lambda1", v2); ("lambda2", v3);
          ("nbins", v4); ("nepochs", v5); ("interactions", v6);
          ("double_precision", v7)]).

Definition set_params_namedtuple (params : PyObj) : M unit :=
  (v <- lift (get_attr params "alpha") ;; set_alpha v) ;;
  (v <- lift (get_attr params "beta") ;; set_beta v) ;;
  (v <- lift (get_attr params "lambda1") ;; set_lambda1 v) ;;
  (v <- lift (get_attr params "lambda2") ;; set_lambda2 v) ;;
  (v <- lift (get_attr params "nbins") ;; set_nbins v) ;;
  (v <- lift (get_attr params "nepochs") ;; set_nepochs v) ;;
  (v <- lift (get_attr params "interactions") ;; set_interactions v) ;;
  (v <- lift (get_attr params "double_precision") ;; set_double_precision v).

Definition get_params_tuple : M PyObj :=
  let params := otuple_new 7 in
  v <- get_alpha ;; let params := otuple_set params 0 v in
  v <- get_beta ;; let params := otuple_set params 1 v in
  v <- get_lambda1 ;; let params := otuple_set params 2 v in
  v <- get_lambda2 ;; let params := otuple_set params 3 v in
  v <- get_nbins ;; let params := otuple_set params 4 v in
  v <- get_nepochs ;; let params := otuple_set params 5 v in
  v <- get_interactions ;; let params := otuple_set params 6 v in
  ret (PyTuple params).

Definition set_params_tuple (params : PyObj) : M unit :=
  params_tuple <- lift (to_otuple params) ;;
  let n_params := List.length params_tuple in
  if negb (n_params =? 8)%nat then
    throw (ValueError [Txt "Tuple of FTRL parameters should have 8 elements, ";
                       Txt "got: "; Num (N.of_nat n_params)])
  else
    (v <- lift (otuple_get params_tuple 0) ;; set_alpha v) ;;
    (v <- lift (otuple_get params_tuple 1) ;; set_beta v) ;;
    (v <- lift (otuple_get params_tuple 2) ;; set_lambda1 v) ;;
    (v <- lift (otuple_get params_tuple 3) ;; set_lambda2 v) ;;
    (v <- lift (otuple_get params_tuple 4) ;; set_nbins v) ;;
    (v <- lift (otuple_get params_tuple 5) ;; set_nepochs v) ;;
    (v <- lift (otuple_get params_tuple 6) ;; set_interactions v) ;;
    (v <- lift (otuple_get params_tuple 7) ;; set_double_precision v).

(** *** Pickling / unpickling methods *)

Definition m__dealloc__ : M unit :=
  assign_labels None ;;
  assign_dtft None ;;
  reset_feature_names.

Definition m__getstate__ (args : PKArgs) : M PyObj :=
  let pickle := otuple_new 4 in
  params <- get_params_tuple ;;
  model <- get_model ;;
  fi <- get_fi_tuple ;;
  r <- read_reg_type ;;
  let py_reg_type := PyInt (RegType_to_int32 r) in
  let pickle := otuple_set pickle 0 params in
  let pickle := otuple_set pickle 1 model in
  let pickle := otuple_set pickle 2 fi in
  let pickle := otuple_set pickle 3 py_reg_type in
  ret (PyTuple pickle).

Definition m__setstate__ (args : PKArgs) : M unit :=
  m__dealloc__ ;;
  pickle <- lift (to_otuple (arg args 0)) ;;
  let ftrl_params := default_params in
  p0 <- lift (otuple_get pickle 0) ;;
  t0 <- lift (to_otuple p0) ;;
  p07 <- lift (otuple_get t0 7) ;;
  double_precision <- lift (to_bool_strict p07) ;;
  (if double_precision
   then assign_dtft (Some (dt.new c_double ftrl_params))
   else assign_dtft (Some (dt.new c_float ftrl_params))) ;;
  (* Set FTRL parameters *)
  (p0 <- lift (otuple_get pickle 0) ;; set_params_tuple p0) ;;
  (* Set model datatable. *)
  (p1 <- lift (otuple_get pickle 1) ;; set_model p1) ;;
  (* Set feature importance info *)
  (p2 <- lift (otuple_get pickle 2) ;;
   if is_frame p2 then
     f <- lift (to_frame p2) ;;
     match f with
     | Some dt_fi => dtft_do (dt.set_fi dt_fi)
     | None => undefined
     end
   else ret tt) ;;
  (* Set regression type *)
  p3 <- lift (otuple_get pickle 3) ;;
  code <- lift (to_int32 p3) ;;
  match RegType_of_int32 code with
  | Some r => assign_reg_type r
  | None => undefined
  end.

(** *** Concrete objects

    The hyperparameters of the scenario of the spec (nbins = 4,
    nepochs = 1, alpha = 0.1, beta = 1, lambda1 = lambda2 = 0, no
    interactions, double precision), the object before [__init__], the
    model constructed from these hyperparameters, and the same model
    after a table of zero weights was installed. *)

Definition scenario_params : dt.FtrlParams :=
  dt.mkFtrlParams (1 # 10) 1 0 0 4 1 false true.

Definition scenario_bundle : PyObj :=
  PyNamedTuple
    [("alpha", PyFloat (1 # 10)); ("beta", PyFloat 1); ("lambda1", PyFloat 0);
     ("lambda2", PyFloat 0); ("nbins", PyInt 4); ("nepochs", PyInt 1);
     ("interactions", PyBool false); ("double_precision", PyBool true)].

Definition blank : Ftrl := mkFtrl None None NONE None.

Definition scenario_fresh : Ftrl :=
  mkFtrl (Some (dt.new c_double scenario_params)) (Some [PyStr "target"])
         NONE None.

Definition zero_weights (t : SType) : DataTable :=
  mkDataTable 4 [mkColumn t [0; 0; 0; 0]; mkColumn t [0; 0; 0; 0]].

Definition scenario_set : Ftrl :=
  mkFtrl (Some (dt.set_model (zero_weights FLOAT32)
                             (dt.new c_double scenario_params)))
         (Some [PyStr "target"]) NONE None.

(** A parameter bundle with alpha = 0.1, beta = lambda1 = lambda2 = 0
    and the given nbins, and the same values as individual
    arguments. *)
Definition bundle_with_nbins (nbins : Z) : PyObj :=
  PyNamedTuple
    [("alpha", PyFloat (1 # 10)); ("beta", PyFloat 0); ("lambda1", PyFloat 0);
     ("lambda2", PyFloat 0); ("nbins", PyInt nbins); ("nepochs", PyInt 1);
     ("interactions", PyBool false); ("double_precision", PyBool false)].

Definition individual_with_nbins (nbins : Z) : PKArgs :=
  [PyUndefined; PyUndefined; PyFloat (1 # 10); PyFloat 0; PyFloat 0;
   PyFloat 0; PyInt nbins; PyInt 1; PyBool false; PyBool false].

(** The model that [__init__] constructs from that bundle with
    nbins = 100: single precision, no interactions. *)
Definition single_fresh : Ftrl :=
  mkFtrl (Some (dt.new c_float
                  (dt.mkFtrlParams (1 # 10) 0 0 0 100 1 false false)))
         (Some [PyStr "target"]) NONE None.

(** The training frames of the scenario of the spec: one boolean
    feature column [true, false, true, false] and the target column
    [true, true, false, false]; and a frame with one column and no
    rows. *)
Definition scenario_X : DataTable :=
  mkDataTable 4 [mkColumn BOOL [1; 0; 1; 0]].

Definition scenario_y : DataTable :=
  mkDataTable 4 [mkColumn BOOL [1; 1; 0; 0]].

Definition no_rows : DataTable := mkDataTable 0 [mkColumn BOOL []].

(** A single-precision model with four bins, and a weight table of its
    shape, of the column type [set_model] asks of it, whose n column holds
    a negative value in its last row. *)
Definition single_four : Ftrl :=
  mkFtrl (Some (dt.new c_float
                  (dt.mkFtrlParams (1 # 10) 0 0 0 4 1 false false)))
         (Some [PyStr "target"]) NONE None.

Definition negative_weights : DataTable :=
  mkDataTable 4 [mkColumn FLOAT64 [0; 0; 0; 0];
                 mkColumn FLOAT64 [0; 0; 0; -1]].

(** A weight table of the scenario's shape whose second column does not
    have the type of the first. *)
Definition mixed_weights : DataTable :=
  mkDataTable 4 [mkColumn FLOAT32 [0; 0; 0; 0];
                 mkColumn FLOAT64 [0; 0; 0; 0]].

(** The column type that the spec ties to the precision flag: float32
    for single precision, float64 for double precision.  This follows
    the spec's words, to be compared with the type [set_model] asks
    for. *)
Definition spec_precision_stype (double_precision : bool) : SType :=
  if double_precision then FLOAT64 else FLOAT32.

(** *** Registration of the methods and properties *)

(** One entry of the property table: [ADD_GETSET] registers a getter and a
    setter under a name, [ADD_GETTER] a getter only. *)
Inductive GetSet : Type :=
| ADD_GETSET (name : string)
| ADD_GETTER (name : string).

Definition getset_name (g : GetSet) : string :=
  match g with ADD_GETSET name => name | ADD_GETTER name => name end.

Definition has_setter (g : GetSet) : bool :=
  match g with ADD_GETSET _ => true | ADD_GETTER _ => false end.

(** [Ftrl::Type::init_methods_and_getsets]: the properties, under the names
    of their [GSArgs], and the methods, in the order of registration. *)
Definition init_getsets : list GetSet :=
  [ADD_GETSET "labels"; ADD_GETSET "model"; ADD_GETTER "feature_importances";
   ADD_GETSET "params"; ADD_GETTER "colname_hashes"; ADD_GETSET "alpha";
   ADD_GETSET "beta"; ADD_GETSET "lambda1"; ADD_GETSET "lambda2";
   ADD_GETSET "nbins"; ADD_GETSET "nepochs"; ADD_GETSET "interactions"].

Definition init_methods : list string :=
  ["__getstate__"; "__setstate__"; "fit"; "predict"; "reset"].

Definition registered (name : string) : bool :=
  existsb (fun g => String.eqb (getset_name g) name) init_getsets.

(** *** Frame conditions *)

(** A computation keeps the view [f] of the object when [f] reads the same
    before and after, whatever the outcome. *)
Definition keeps {A B : Type} (f : Ftrl -> B) (c : M A) : Prop :=
  forall self : Ftrl, f (snd (c self)) = f self.

(** A view that does not look at the engine pointer. *)
Definition dtft_blind {B : Type} (f : Ftrl -> B) : Prop :=
  forall (v : option dt.Ftrl) (self : Ftrl),
    f (mkFtrl v (labels self) (reg_type self) (feature_names self)) = f self.

(** A computation that stands for one outcome, the same for every object,
    never undefined, and leaves the object alone. *)
Definition is_lift {A : Type} (c : M A) : Prop :=
  exists o : Outcome A, o <> Undefined /\ forall self : Ftrl, c self = (o, self).

(** The members of the object other than the engine pointer. *)
Definition members (self : Ftrl) : option (list PyObj) * RegType * option (list string) :=
  (labels self, reg_type self, feature_names self).

(** The type [set_model] asks of every column. *)
Definition required_stype (d : dt.Ftrl) : SType :=
  if dt.get_double_precision d then FLOAT32 else FLOAT64.

(** A model trained on the scenario's one column, with the hash of that
    column recorded. *)
Definition scenario_trained : Ftrl :=
  mkFtrl (Some (dt.mkFtrl c_double scenario_params
                          (Some (zero_weights FLOAT32)) None true 1 [42%N]))
         (Some [PyStr "target"]) NONE None.

(** *** Proof support *)

Ltac unfold_M :=
  unfold bind, ret, throw, undefined, lift, dtft_get, dtft_do, dtft_call,
    assign_dtft, assign_labels, assign_reg_type, assign_feature_names,
    read_reg_type, read_labels in *.

(** *** Labels *)

(** C7. [set_labels] of the empty list leaves the single label
    "target"; a list of exactly one element is refused with a
    ValueError and the object is unchanged; a list of two labels is
    stored as given, in order. *)
Theorem set_labels_cases (self : Ftrl) (x a b : PyObj) :
  set_labels (PyList []) self
    = (Returns tt,
       mkFtrl (dtft self) (Some [PyStr "target"]) (reg_type self)
              (feature_names self))
  /\ set_labels (PyList [x]) self
    = (Throws (ValueError [Txt "List of labels can not have one element"]),
       self)
  /\ set_labels (PyList [a; b]) self
    = (Returns tt,
       mkFtrl (dtft self) (Some [a; b]) (reg_type self) (feature_names self)).
Proof.
  repeat split.
Qed.

(** *** The number of bins *)

(** C9. On a trained model [set_nbins] throws, for every value, the
    ValueError that tells the caller to reset the model or create a new
    one, and the object (so nbins too) is unchanged.  On an untrained
    model a positive integer is accepted and stored. *)
Theorem set_nbins_trained_refused (self : Ftrl) (d : dt.Ftrl) :
  dtft self = Some d ->
  (dt.is_trained d = true ->
   forall v : PyObj,
     set_nbins v self
     = (Throws (ValueError [Txt "Cannot set `nbins` for a trained model, ";
                            Txt "reset this model or create a new one"]),
        self))
  /\ (dt.is_trained d = false ->
      forall z : Z, (0 < z < 2 ^ 63)%Z ->
        set_nbins (PyInt z) self
        = (Returns tt,
           mkFtrl (Some (dt.set_nbins (Z.to_N z) d)) (labels self)
                  (reg_type self) (feature_names self))).
Proof.
  intros Hd; split; intros Ht.
  - intros v. unfold set_nbins. unfold_M. rewrite Hd, Ht. reflexivity.
  - intros z [Hlo Hhi].
    assert (Hneg : (z <? 0)%Z = false) by lia.
    assert (Hbig : (2 ^ 63 <=? z)%Z = false) by (apply Z.leb_gt; exact Hhi).
    assert (Hpos : (Z.to_N z <=? 0)%N = false) by (apply N.leb_gt; clear Hhi Hbig; lia).
    unfold set_nbins, to_size_t, check_positive. unfold_M.
    rewrite Hd, Ht, Hneg, Hbig. cbv beta iota.
    cbn [leb0 Numeric_uint64]. rewrite Hpos. cbv beta iota.
    rewrite ?Hd. reflexivity.
Qed.

(** *** The precision flag *)

(** C4. What the [double_precision] setter does: it stores its argument
    in the engine's [interactions] flag and leaves the
    [double_precision] flag as it was. *)
Theorem set_double_precision_sets_interactions
        (self : Ftrl) (d : dt.Ftrl) (b : bool) :
  dtft self = Some d ->
  exists d' : dt.Ftrl,
    set_double_precision (PyBool b) self
    = (Returns tt,
       mkFtrl (Some d') (labels self) (reg_type self) (feature_names self))
    /\ dt.get_double_precision d' = dt.get_double_precision d
    /\ dt.get_interactions d' = b.
Proof.
  intros Hd. exists (dt.set_interactions b d).
  unfold set_double_precision. unfold_M. cbn. rewrite Hd.
  repeat split.
Qed.

(** *** Training *)

(** C6. [fit] on two frames throws a ValueError when X has no columns
    or no rows, when y does not have exactly one column, or when the
    row counts differ; the object is then exactly as before the
    call. *)
Theorem fit_rejects_bad_shapes (self : Ftrl) (X y : DataTable) :
  ncols X = 0%nat \/ nrows X = 0%N \/ ncols y <> 1%nat \/ nrows X <> nrows y ->
  exists msg : list piece,
    fit [PyFrame (Some X); PyFrame (Some y)] self
    = (Throws (ValueError msg), self).
Proof.
  intros H. unfold fit. unfold_M. cbn.
  destruct (Nat.eqb_spec (ncols X) 0) as [_ | Hc]; [eauto |].
  destruct (N.eqb_spec (nrows X) 0) as [_ | Hr]; [eauto |].
  destruct (Nat.eqb_spec (ncols y) 1) as [Hy | _]; cbn; [| eauto].
  destruct (N.eqb_spec (nrows X) (nrows y)) as [Hxy | _]; cbn; [| eauto].
  exfalso. destruct H as [H | [H | [H | H]]]; contradiction.
Qed.

(** *** Read-only accessors *)

Lemma colname_hashes_fill_returns (hashes : list N) (count : nat) :
  forall (t : list PyObj) (i : nat),
    (i + count <= List.length hashes)%nat ->
    exists t' : list PyObj, colname_hashes_fill hashes t i count = Returns t'.
Proof.
  induction count as [| count IH]; intros t i Hlen; cbn.
  - eauto.
  - destruct (nth_error hashes i) as [h |] eqn:Hnth.
    + apply IH. lia.
    + apply nth_error_None in Hnth. lia.
Qed.

(** C10. While the engine is untrained, [get_model], [get_fi] and
    [get_colname_hashes] return [None] and throw nothing.  Once it is
    trained each of them returns an object that is not [None]; for the
    hashes this uses that the engine keeps one hash for each recorded
    training column.  None of them changes the object. *)
Theorem accessors_none_until_trained (self : Ftrl) (d : dt.Ftrl) :
  dtft self = Some d ->
  (dt.is_trained d = false ->
   get_model self = (Returns PyNone, self)
   /\ get_fi self = (Returns PyNone, self)
   /\ get_colname_hashes self = (Returns PyNone, self))
  /\ (dt.is_trained d = true ->
      (dt.get_dt_X_ncols d <= List.length (dt.get_colnames_hashes d))%nat ->
      exists v1 v2 v3 : PyObj,
        get_model self = (Returns v1, self) /\ is_none v1 = false
        /\ get_fi self = (Returns v2, self) /\ is_none v2 = false
        /\ get_colname_hashes self = (Returns v3, self) /\ is_none v3 = false).
Proof.
  intros Hd; split.
  - intros Ht. unfold get_model, get_fi, get_colname_hashes. unfold_M.
    rewrite Hd, Ht. repeat split.
  - intros Ht Hlen.
    destruct (colname_hashes_fill_returns (dt.get_colnames_hashes d)
                (dt.get_dt_X_ncols d) (otuple_new (dt.get_dt_X_ncols d)) 0)
      as [t Hfill]; [lia |].
    exists (PyFrame (dt.get_model d)), (PyFrame (dt_get_fi true d)), (PyTuple t).
    unfold get_model, get_fi, get_colname_hashes. unfold_M.
    rewrite Hd, Ht. cbv beta iota. rewrite ?Hd. cbv beta iota.
    rewrite ?Hd. cbv beta iota. rewrite Hfill. repeat split.
Qed.

(** *** Installing a weight table *)

(** The shape test: an odd number of columns, or a row count that is not
    nbins, is a ValueError, and the object is unchanged. *)
Lemma set_model_rejects_shape (self : Ftrl) (d : dt.Ftrl) (t : DataTable) :
  dtft self = Some d ->
  (ncols t mod 2 <> 0)%nat \/ nrows t <> dt.get_nbins d ->
  exists msg : list piece,
    set_model (PyFrame (Some t)) self = (Throws (ValueError msg), self).
Proof.
  intros Hd H. unfold set_model. unfold_M. cbn [is_none to_frame].
  rewrite Hd.
  destruct (N.eqb_spec (nrows t) (dt.get_nbins d)) as [Hrows | Hrows];
    cbn [negb orb]; [| eexists; reflexivity].
  destruct (Nat.eqb_spec (ncols t mod 2) 0) as [Hcols | Hcols];
    cbn [negb]; [| eexists; reflexivity].
  destruct H; contradiction.
Qed.

(** The scan that [set_model] picks never has the width of the column
    type that [set_model] asks for. *)
Lemma scan_width_mismatch (d : dt.Ftrl) :
  holds_elements (if dt.get_double_precision d then c_double else c_float)
                 (required_stype d) = false.
Proof. unfold required_stype. destruct (dt.get_double_precision d); reflexivity. Qed.

Lemma has_negatives_wrong_width (T : real_t) (c : Column) :
  holds_elements T (stype c) = false -> data c <> [] ->
  has_negatives T c = Undefined.
Proof.
  intros Hw Hne. unfold has_negatives. destruct (data c); [contradiction |].
  rewrite Hw. reflexivity.
Qed.

(** C8. What [set_model] does with the n column of a frame that has
    passed the shape test and whose columns have the type it asks for.
    Column 0 passes and the table is installed.  Column 1 is then
    scanned for negatives at the width opposite to its type: the call
    does not throw the ValueError on the strength of the values of the
    column, it runs into the read that C++ leaves undefined, and the
    table stays installed. *)
Theorem set_model_scans_at_wrong_width
        (self : Ftrl) (d : dt.Ftrl) (t : DataTable)
        (c0 c1 : Column) (rest : list Column) :
  dtft self = Some d ->
  nrows t = dt.get_nbins d ->
  (ncols t mod 2 = 0)%nat ->
  columns t = c0 :: c1 :: rest ->
  stype c0 = required_stype d ->
  stype c1 = required_stype d ->
  data c1 <> [] ->
  holds_elements (if dt.get_double_precision d then c_double else c_float)
                 (stype c1) = false
  /\ set_model (PyFrame (Some t)) self
     = (Undefined,
        mkFtrl (Some (dt.set_model t d)) (labels self) (reg_type self)
               (feature_names self)).
Proof.
  intros Hd Hrows Hcols Hcol Hty0 Hty1 Hne.
  assert (Hw : holds_elements
                 (if dt.get_double_precision d then c_double else c_float)
                 (stype c1) = false)
    by (rewrite Hty1; apply scan_width_mismatch).
  split; [exact Hw |].
  unfold set_model. unfold_M. cbn [is_none to_frame].
  rewrite Hd, Hrows, N.eqb_refl, Hcols. cbn [Nat.eqb negb orb]. rewrite Hd, Hcol.
  unfold required_stype in Hty0, Hty1.
  destruct (dt.get_double_precision d);
    cbn [set_model_columns]; unfold_M; rewrite Hty0, Hty1; cbn; rewrite Hd; cbn;
    rewrite (has_negatives_wrong_width _ c1 Hw Hne); reflexivity.
Qed.

(** C2. The type [set_model] asks of the columns is the opposite of the
    one the precision flag stands for: a frame of the right shape whose
    first column has the type of the configured precision is refused
    at column 0 with the type error, and the object is unchanged. *)
Theorem set_model_refuses_configured_precision
        (self : Ftrl) (d : dt.Ftrl) (t : DataTable)
        (col : Column) (rest : list Column) :
  dtft self = Some d ->
  nrows t = dt.get_nbins d ->
  (ncols t mod 2 = 0)%nat ->
  columns t = col :: rest ->
  stype col = spec_precision_stype (dt.get_double_precision d) ->
  set_model (PyFrame (Some t)) self
  = (Throws (ValueError
       [Txt "Column "; Num 0; Txt " in the model frame should ";
        Txt "have a type of ";
        Ty (spec_precision_stype (negb (dt.get_double_precision d)));
        Txt ", whereas your "; Txt "frame has the following column type: ";
        Ty (spec_precision_stype (dt.get_double_precision d))]),
     self).
Proof.
  intros Hd Hrows Hcols Hcol Hty. unfold set_model. unfold_M.
  cbn [is_none to_frame]. rewrite Hd, Hrows, N.eqb_refl, Hcols.
  cbn [Nat.eqb negb orb]. rewrite Hd, Hcol. cbn [set_model_columns].
  rewrite Hty. destruct (dt.get_double_precision d); reflexivity.
Qed.

(** Once the table is installed, the rest of the column loop leaves the
    object as it is, whatever it comes to. *)
Lemma set_model_columns_installed
      (t : DataTable) (st : SType) (hn : Column -> Outcome bool)
      (cols : list Column) :
  forall (i : nat) (self : Ftrl) (d : dt.Ftrl),
    dtft self = Some (dt.set_model t d) ->
    snd (set_model_columns t st hn i cols self) = self.
Proof.
  induction cols as [| c rest IH]; intros i self d Hd; [reflexivity |].
  destruct self as [p l r fn]. cbn in Hd. subst p.
  cbn [set_model_columns]. cbv zeta.
  destruct (negb (SType_eqb (stype c) st)); [reflexivity |].
  unfold bind at 1.
  destruct (negb (i mod 2 =? 0)%nat); unfold lift, ret;
    [destruct (hn c) as [[|] | e |] |]; try reflexivity;
    unfold bind, dtft_do; cbn [dtft labels reg_type feature_names];
    change (dt.set_model t (dt.set_model t d)) with (dt.set_model t d);
    exact (IH (S i) (mkFtrl (Some (dt.set_model t d)) l r fn) d eq_refl).
Qed.

(** The other half of the inversion: a frame of the right shape whose
    first column has the type opposite to the configured precision
    passes the type test at column 0, and the engine holds the table
    from then on, whatever the later columns bring. *)
Lemma set_model_first_column_installs
      (self : Ftrl) (d : dt.Ftrl) (t : DataTable)
      (c0 : Column) (rest : list Column) :
  dtft self = Some d ->
  nrows t = dt.get_nbins d ->
  (ncols t mod 2 = 0)%nat ->
  columns t = c0 :: rest ->
  stype c0 = spec_precision_stype (negb (dt.get_double_precision d)) ->
  snd (set_model (PyFrame (Some t)) self)
  = mkFtrl (Some (dt.set_model t d)) (labels self) (reg_type self)
           (feature_names self).
Proof.
  intros Hd Hrows Hcols Hcol Hty. unfold set_model. unfold_M.
  cbn [is_none to_frame]. rewrite Hd, Hrows, N.eqb_refl, Hcols.
  cbn [Nat.eqb negb orb]. rewrite Hd, Hcol.
  destruct (dt.get_double_precision d); cbn [negb spec_precision_stype] in Hty;
    cbn [set_model_columns]; unfold_M; rewrite Hty; cbn; rewrite Hd; cbn;
    erewrite set_model_columns_installed; reflexivity.
Qed.

(** *** Prediction *)

(** C5, as the code has it.  [predict] on a frame throws a ValueError
    when the engine is untrained, and when the recorded training column
    count is not zero and differs from the column count of X.  When the
    engine is trained and the recorded count is zero, or equals the
    column count of X, the frame goes to the prediction kernel and its
    result is returned.  The object is unchanged in each case. *)
Theorem predict_checks (self : Ftrl) (d : dt.Ftrl) (X : DataTable) :
  dtft self = Some d ->
  (dt.is_trained d = false ->
   predict [PyFrame (Some X)] self
   = (Throws (ValueError [Txt "Cannot make any predictions, train or set ";
                          Txt "the model first"]),
      self))
  /\ (dt.is_trained d = true ->
      dt.get_dt_X_ncols d <> 0%nat ->
      ncols X <> dt.get_dt_X_ncols d ->
      exists msg : list piece,
        predict [PyFrame (Some X)] self = (Throws (ValueError msg), self))
  /\ (dt.is_trained d = true ->
      dt.get_dt_X_ncols d = 0%nat \/ ncols X = dt.get_dt_X_ncols d ->
      predict [PyFrame (Some X)] self
      = (Returns (PyFrame (Some (dt_predict X d))), self)).
Proof.
  intros Hd. unfold predict. unfold_M. cbn [is_undefined arg nth to_frame].
  rewrite Hd. repeat split.
  - intros Ht. rewrite Ht. reflexivity.
  - intros Ht Hn0 Hne. rewrite Ht. cbn [negb]. rewrite Hd. cbv beta iota.
    destruct (Nat.eqb_spec (ncols X) (dt.get_dt_X_ncols d)); [contradiction |].
    destruct (Nat.eqb_spec (dt.get_dt_X_ncols d) 0); [contradiction |].
    eexists. reflexivity.
  - intros Ht Hok. rewrite Ht. cbn [negb]. rewrite Hd. cbv beta iota.
    assert (Hpass : negb (ncols X =? dt.get_dt_X_ncols d)%nat
                    && negb (dt.get_dt_X_ncols d =? 0)%nat = false).
    { destruct Hok as [H0 | Heq].
      - rewrite H0. apply andb_false_r.
      - rewrite Heq, Nat.eqb_refl. reflexivity. }
    rewrite Hpass, Hd. reflexivity.
Qed.

(** *** Construction *)

(** C3. The two ways of passing nbins = 0 to the constructor, with
    alpha = 0.1 and beta = lambda1 = lambda2 = 0.  Passed as an
    individual argument, nbins = 0 is refused with a ValueError.
    Passed in the parameter bundle, it is accepted and the model is
    constructed with nbins = 0: the bundle is checked with
    [check_not_negative] where the individual argument is checked with
    [check_positive]. *)
Theorem init_bundle_accepts_zero_nbins :
  m__init__ [bundle_with_nbins 0] blank
  = (Returns tt,
     mkFtrl (Some (dt.new c_float
                     (dt.mkFtrlParams (1 # 10) 0 0 0 0 1 false false)))
            (Some [PyStr "target"]) NONE None)
  /\ m__init__ (individual_with_nbins 0) blank
    = (Throws (ValueError [Txt "Value should be positive"]), blank).
Proof.
  split; reflexivity.
Qed.

(** The same two calls with nbins = 100 both construct the model. *)
Lemma init_accepts_nbins_100 :
  m__init__ [bundle_with_nbins 100] blank = (Returns tt, single_fresh)
  /\ m__init__ (individual_with_nbins 100) blank = (Returns tt, single_fresh).
Proof.
  split; reflexivity.
Qed.

(** Values given individually are refused as the contract says: alpha
    that is zero or negative, and beta, lambda1 or lambda2 that is
    negative.  Given in the bundle they are refused too. *)
Lemma init_rejects_alpha (q : Q) (self : Ftrl) :
  q <= 0 ->
  (exists msg s, m__init__ [PyUndefined; PyUndefined; PyFloat q] self
                 = (Throws (ValueError msg), s))
  /\ (exists msg s,
        m__init__ [PyNamedTuple
                     [("alpha", PyFloat q); ("beta", PyFloat 0);
                      ("lambda1", PyFloat 0); ("lambda2", PyFloat 0);
                      ("nbins", PyInt 100); ("nepochs", PyInt 1);
                      ("interactions", PyBool false);
                      ("double_precision", PyBool false)]] self
        = (Throws (ValueError msg), s)).
Proof.
  intros Hq. apply Qle_bool_iff in Hq.
  split; unfold m__init__, check_positive; unfold_M; cbn;
    rewrite Hq; eauto.
Qed.

Lemma init_rejects_negative (q : Q) (self : Ftrl) :
  q < 0 ->
  (exists msg s,
     m__init__ [PyUndefined; PyUndefined; PyUndefined; PyFloat q] self
     = (Throws (ValueError msg), s))
  /\ (exists msg s,
        m__init__ [PyUndefined; PyUndefined; PyUndefined; PyUndefined; PyFloat q]
                  self
        = (Throws (ValueError msg), s))
  /\ (exists msg s,
        m__init__ [PyUndefined; PyUndefined; PyUndefined; PyUndefined;
                   PyUndefined; PyFloat q] self
        = (Throws (ValueError msg), s)).
Proof.
  intros Hq.
  assert (Hneg : Qle_bool 0 q = false).
  { destruct (Qle_bool 0 q) eqn:Hle; [| reflexivity].
    apply Qle_bool_iff in Hle. exfalso. exact (Qlt_not_le _ _ Hq Hle). }
  repeat split; unfold m__init__, check_not_negative; unfold_M; cbn;
    rewrite Hneg; cbn; eauto.
Qed.

(** *** Pickling *)

(** C1. What [__getstate__] exports and what [__setstate__] makes of
    it.  The exported record has four components, but its first
    component has seven elements: the double_precision flag is not
    exported.  [__setstate__] reads element 7 of that component, past
    its end, and [set_params_tuple] refuses a tuple that does not have
    eight elements: no exported state can be restored. *)
Theorem getstate_not_restorable (self fresh : Ftrl) (d : dt.Ftrl) :
  dtft self = Some d ->
  let params :=
    [PyFloat (dt.get_alpha d); PyFloat (dt.get_beta d);
     PyFloat (dt.get_lambda1 d); PyFloat (dt.get_lambda2 d);
     PyInt (Z.of_N (dt.get_nbins d)); PyInt (Z.of_N (dt.get_nepochs d));
     PyBool (dt.get_interactions d)] in
  exists model fi r : PyObj,
    m__getstate__ [] self
    = (Returns (PyTuple [PyTuple params; model; fi; r]), self)
    /\ List.length params = 7%nat
    /\ fst (m__setstate__ [PyTuple [PyTuple params; model; fi; r]] fresh)
       = Undefined
    /\ (forall s : Ftrl,
          set_params_tuple (PyTuple params) s
          = (Throws (ValueError
               [Txt "Tuple of FTRL parameters should have 8 elements, ";
                Txt "got: "; Num 7]),
             s)).
Proof.
  intros Hd params.
  exists (if dt.is_trained d then PyFrame (dt.get_model d) else PyNone),
         (if dt.is_trained d then PyTuple [PyFrame (dt_get_fi false d)]
          else PyNone),
         (PyInt (RegType_to_int32 (reg_type self))).
  repeat split.
  unfold m__getstate__, get_params_tuple, get_model, get_fi_tuple,
    get_alpha, get_beta, get_lambda1, get_lambda2, get_nbins, get_nepochs,
    get_interactions.
  unfold_M. destruct (dt.is_trained d) eqn:Ht;
    repeat (first [rewrite Hd | rewrite Ht]; cbv beta iota); reflexivity.
Qed.

(** The model of the scenario is the state that [__init__] reaches from
    the scenario's bundle. *)
Lemma scenario_models_reached :
  m__init__ [scenario_bundle] blank = (Returns tt, scenario_fresh).
Proof.
  reflexivity.
Qed.

(** *** Frame lemmas *)

Lemma keeps_ret {A B : Type} (f : Ftrl -> B) (a : A) : keeps f (ret a).
Proof. intros self. reflexivity. Qed.

Lemma keeps_throw {A B : Type} (f : Ftrl -> B) (e : Exception) :
  keeps f (@throw A e).
Proof. intros self. reflexivity. Qed.

Lemma keeps_undefined {A B : Type} (f : Ftrl -> B) : keeps f (@undefined A).
Proof. intros self. reflexivity. Qed.

Lemma keeps_lift {A B : Type} (f : Ftrl -> B) (o : Outcome A) : keeps f (lift o).
Proof. intros self. reflexivity. Qed.

Lemma keeps_bind {A C B : Type} (f : Ftrl -> B) (c : M A) (k : A -> M C) :
  keeps f c -> (forall a : A, keeps f (k a)) -> keeps f (bind c k).
Proof.
  intros Hc Hk self. unfold bind. specialize (Hc self).
  destruct (c self) as [[a | e |] self']; cbn in Hc |- *.
  - rewrite Hk. exact Hc.
  - exact Hc.
  - exact Hc.
Qed.

Lemma keeps_dtft_get {A B : Type} (f : Ftrl -> B) (g : dt.Ftrl -> A) :
  keeps f (dtft_get g).
Proof. intros self. unfold dtft_get. destruct (dtft self); reflexivity. Qed.

Lemma keeps_dtft_do {B : Type} (f : Ftrl -> B) (g : dt.Ftrl -> dt.Ftrl) :
  dtft_blind f -> keeps f (dtft_do g).
Proof.
  intros Hf self. unfold dtft_do. destruct (dtft self); cbn; [apply Hf | reflexivity].
Qed.

Lemma keeps_dtft_call {A B : Type} (f : Ftrl -> B)
      (g : dt.Ftrl -> Outcome A * dt.Ftrl) :
  dtft_blind f -> keeps f (dtft_call g).
Proof.
  intros Hf self. unfold dtft_call. destruct (dtft self) as [d |]; [| reflexivity].
  destruct (g d) as [r d']. cbn. apply Hf.
Qed.

Lemma keeps_assign_dtft {B : Type} (f : Ftrl -> B) (v : option dt.Ftrl) :
  dtft_blind f -> keeps f (assign_dtft v).
Proof. intros Hf self. cbn. apply Hf. Qed.

Lemma keeps_read_reg_type {B : Type} (f : Ftrl -> B) : keeps f read_reg_type.
Proof. intros self. reflexivity. Qed.

Lemma keeps_read_labels {B : Type} (f : Ftrl -> B) : keeps f read_labels.
Proof. intros self. reflexivity. Qed.

Lemma members_blind : dtft_blind members.
Proof. intros v self. reflexivity. Qed.

Lemma labels_blind : dtft_blind labels.
Proof. intros v self. reflexivity. Qed.

Lemma reg_type_blind : dtft_blind reg_type.
Proof. intros v self. reflexivity. Qed.

Lemma feature_names_blind : dtft_blind feature_names.
Proof. intros v self. reflexivity. Qed.

Ltac blind :=
  first [ exact members_blind | exact labels_blind | exact reg_type_blind
        | exact feature_names_blind | assumption ].

(** One step of a frame proof: a primitive, a sequencing, or a case
    split on the condition or the scrutinee that the computation
    branches on. *)
Ltac keeps_step :=
  first
    [ apply keeps_ret | apply keeps_throw | apply keeps_undefined
    | apply keeps_lift | apply keeps_dtft_get | apply keeps_read_reg_type
    | apply keeps_read_labels
    | apply keeps_dtft_do; blind
    | apply keeps_dtft_call; blind
    | apply keeps_assign_dtft; blind
    | apply keeps_bind; [| intro]
    | match goal with
      | |- keeps _ (if ?b then _ else _) => destruct b
      | |- keeps _ (match ?x with _ => _ end) => destruct x
      end ].

Ltac keeps_auto := cbv zeta; repeat keeps_step.

(** *** Prediction and training at the edges *)

(** X1. [predict] only reads: whatever the arguments and the outcome, the
    object is the same afterwards.  A [None] frame is answered with
    [None] before the engine is looked at, so even on an untrained model
    or a destroyed engine; a missing argument is a ValueError. *)
Theorem predict_reads_only (args : PKArgs) (rest : PKArgs) (self : Ftrl) :
  snd (predict args self) = self
  /\ predict (PyNone :: rest) self = (Returns PyNone, self)
  /\ predict [] self
     = (Throws (ValueError [Txt "Frame to make predictions for is missing"]),
        self).
Proof.
  split; [| split; reflexivity].
  assert (H : keeps (fun s : Ftrl => s) (predict args)).
  { unfold predict. keeps_auto. }
  exact (H self).
Qed.

(** X2. [fit] returns at once, without a shape test and without calling the
    engine, when either frame is [None]; the object is unchanged.  A
    missing argument is a ValueError that names it. *)
Theorem fit_none_frame_returns (X y : option DataTable) (self : Ftrl) :
  fit [PyNone; PyFrame y] self = (Returns tt, self)
  /\ fit [PyFrame X; PyNone] self = (Returns tt, self)
  /\ fit [] self
     = (Throws (ValueError [Txt "Training frame parameter is missing"]), self)
  /\ fit [PyFrame X] self
     = (Throws (ValueError [Txt "Target frame parameter is missing"]), self).
Proof.
  repeat split. destruct X; reflexivity.
Qed.

(** X3. When the four shape tests pass, the outcome of [fit] is the outcome
    of the engine's training entry point; the binding itself records
    nothing: labels, regression type and feature names are as before. *)
Theorem fit_delegates (self : Ftrl) (d : dt.Ftrl) (X y : DataTable) :
  dtft self = Some d ->
  ncols X <> 0%nat -> nrows X <> 0%N -> ncols y = 1%nat -> nrows X = nrows y ->
  fit [PyFrame (Some X); PyFrame (Some y)] self
  = (fst (dt_dispatch_fit X y d),
     mkFtrl (Some (snd (dt_dispatch_fit X y d))) (labels self) (reg_type self)
            (feature_names self)).
Proof.
  intros Hd Hc Hr Hy Hxy. unfold fit. unfold_M. cbn [is_undefined arg nth to_frame].
  destruct (Nat.eqb_spec (ncols X) 0) as [| _]; [contradiction |].
  destruct (N.eqb_spec (nrows X) 0) as [| _]; [contradiction |].
  rewrite Hy, Hxy, N.eqb_refl. cbn [Nat.eqb negb]. rewrite Hd.
  destruct (dt_dispatch_fit X y d). reflexivity.
Qed.

(** *** The label list *)

Lemma set_labels_outcome (o : PyObj) (self : Ftrl) :
  (exists l : list PyObj,
     l <> []
     /\ set_labels o self
        = (Returns tt,
           mkFtrl (dtft self) (Some l) (reg_type self) (feature_names self))
     /\ (to_pylist o = Returns l
         \/ (to_pylist o = Returns [] /\ l = [PyStr "target"])))
  \/ (exists e : Exception, set_labels o self = (Throws e, self)).
Proof.
  assert (Hlist : forall items : list PyObj,
             to_pylist o = Returns items ->
             (exists l : list PyObj,
                l <> []
                /\ set_labels o self
                   = (Returns tt,
                      mkFtrl (dtft self) (Some l) (reg_type self)
                             (feature_names self))
                /\ (to_pylist o = Returns l
                    \/ (to_pylist o = Returns [] /\ l = [PyStr "target"])))
             \/ (exists e : Exception, set_labels o self = (Throws e, self))).
  { intros items Hitems. unfold set_labels. unfold_M. rewrite Hitems.
    destruct items as [| a [| b rest]].
    - left. exists [PyStr "target"]. repeat split; [discriminate | now right].
    - right. eexists. reflexivity.
    - left. exists (a :: b :: rest). repeat split; [discriminate | now left]. }
  destruct o; try (right; eexists; reflexivity); eapply Hlist; reflexivity.
Qed.

(** X4. Whatever it is given, [set_labels] either stores a list that is not
    empty (the input list or tuple, or ["target"] for an empty one), so
    that there is always at least one classifier, and [get_labels] then
    returns that list; or it throws and the object is unchanged.  The
    other members are never touched. *)
Theorem set_labels_stores_nonempty (o : PyObj) (self : Ftrl) :
  (exists l : list PyObj,
     l <> []
     /\ set_labels o self
        = (Returns tt,
           mkFtrl (dtft self) (Some l) (reg_type self) (feature_names self))
     /\ fst (bind (set_labels o) (fun _ => get_labels) self) = Returns (PyList l)
     /\ (to_pylist o = Returns l
         \/ (to_pylist o = Returns [] /\ l = [PyStr "target"])))
  \/ (exists e : Exception, set_labels o self = (Throws e, self)).
Proof.
  destruct (set_labels_outcome o self) as [(l & Hne & Hset & Hfrom) | Hthrow];
    [left | right; exact Hthrow].
  exists l. repeat split; try assumption.
  unfold bind. rewrite Hset. reflexivity.
Qed.

(** *** Reset *)

Lemma get_params_namedtuple_value (self : Ftrl) (d : dt.Ftrl) :
  dtft self = Some d ->
  get_params_namedtuple self
  = (Returns (PyNamedTuple
       [("alpha", PyFloat (dt.get_alpha d)); ("beta", PyFloat (dt.get_beta d));
        ("lambda1", PyFloat (dt.get_lambda1 d));
        ("lambda2", PyFloat (dt.get_lambda2 d));
        ("nbins", PyInt (Z.of_N (dt.get_nbins d)));
        ("nepochs", PyInt (Z.of_N (dt.get_nepochs d)));
        ("interactions", PyBool (dt.get_interactions d));
        ("double_precision", PyBool (dt.get_double_precision d))]),
     self).
Proof.
  intros Hd.
  unfold get_params_namedtuple, get_alpha, get_beta, get_lambda1, get_lambda2,
    get_nbins, get_nepochs, get_interactions, get_double_precision.
  unfold_M. repeat (rewrite Hd; cbv beta iota). reflexivity.
Qed.

Lemma set_nbins_untrained (self : Ftrl) (d : dt.Ftrl) (z : Z) :
  dtft self = Some d -> dt.is_trained d = false -> (0 < z < 2 ^ 63)%Z ->
  set_nbins (PyInt z) self
  = (Returns tt,
     mkFtrl (Some (dt.set_nbins (Z.to_N z) d)) (labels self) (reg_type self)
            (feature_names self)).
Proof.
  intros Hd Ht [Hlo Hhi].
  assert (Hneg : (z <? 0)%Z = false) by lia.
  assert (Hbig : (2 ^ 63 <=? z)%Z = false) by (apply Z.leb_gt; exact Hhi).
  assert (Hpos : (Z.to_N z <=? 0)%N = false)
    by (apply N.leb_gt; clear Hhi Hbig; lia).
  unfold set_nbins, to_size_t, check_positive. unfold_M.
  rewrite Hd, Ht, Hneg, Hbig. cbv beta iota.
  cbn [leb0 Numeric_uint64]. rewrite Hpos. cbv beta iota.
  rewrite ?Hd. reflexivity.
Qed.

(** X5. Assigning [None] to [.model] does exactly what [reset()] does.  After
    either, the regression type is NONE, [get_model] returns [None], the
    hyperparameters read as before, and nbins can be set again, also
    when the model was trained. *)
Theorem reset_untrains (args : PKArgs) (self : Ftrl) (d : dt.Ftrl) (z : Z) :
  dtft self = Some d ->
  (0 < z < 2 ^ 63)%Z ->
  set_model PyNone self = reset args self
  /\ reset args self
     = (Returns tt,
        mkFtrl (Some (dt.reset d)) (labels self) NONE (feature_names self))
  /\ fst (bind (reset args) (fun _ => get_model) self) = Returns PyNone
  /\ fst (bind (reset args) (fun _ => get_params_namedtuple) self)
     = fst (get_params_namedtuple self)
  /\ fst (bind (reset args) (fun _ => set_nbins (PyInt z)) self) = Returns tt.
Proof.
  intros Hd Hz.
  assert (Hreset : reset args self
                   = (Returns tt,
                      mkFtrl (Some (dt.reset d)) (labels self) NONE
                             (feature_names self))).
  { unfold reset. unfold_M. cbn. rewrite Hd. reflexivity. }
  split; [reflexivity |]. split; [exact Hreset |].
  unfold bind. rewrite Hreset. repeat split.
  - rewrite (get_params_namedtuple_value self d Hd).
    rewrite (get_params_namedtuple_value
               (mkFtrl (Some (dt.reset d)) (labels self) NONE (feature_names self))
               (dt.reset d) eq_refl).
    reflexivity.
  - erewrite set_nbins_untrained; [reflexivity | reflexivity | reflexivity | exact Hz].
Qed.

(** *** More on installing a weight table *)

(** X6. A frame with nbins rows and no columns passes the shape test, the
    loop over the columns does not run, and nothing is installed: the
    call returns and the object is unchanged. *)
Theorem set_model_no_columns (self : Ftrl) (d : dt.Ftrl) (t : DataTable) :
  dtft self = Some d ->
  nrows t = dt.get_nbins d ->
  columns t = [] ->
  set_model (PyFrame (Some t)) self = (Returns tt, self).
Proof.
  intros Hd Hrows Hcols. unfold set_model, ncols. unfold_M.
  cbn [is_none to_frame]. rewrite Hd, Hrows, N.eqb_refl, Hcols. cbn.
  rewrite Hd. reflexivity.
Qed.

(** X7. The table is installed as soon as column 0 has passed, before the
    later columns are looked at: when column 1 does not have the type
    that is asked for, the call throws a ValueError and the engine
    nevertheless holds the table and counts as trained. *)
Theorem set_model_installs_before_failing
        (self : Ftrl) (d : dt.Ftrl) (t : DataTable)
        (c0 c1 : Column) (rest : list Column) :
  dtft self = Some d ->
  nrows t = dt.get_nbins d ->
  (ncols t mod 2 = 0)%nat ->
  columns t = c0 :: c1 :: rest ->
  stype c0 = required_stype d ->
  stype c1 <> required_stype d ->
  exists msg : list piece,
    set_model (PyFrame (Some t)) self
    = (Throws (ValueError msg),
       mkFtrl (Some (dt.set_model t d)) (labels self) (reg_type self)
              (feature_names self))
    /\ dt.is_trained (dt.set_model t d) = true
    /\ dt.get_model (dt.set_model t d) = Some t.
Proof.
  intros Hd Hrows Hcols Hcol Hty0 Hty1. unfold set_model. unfold_M.
  cbn [is_none to_frame]. rewrite Hd, Hrows, N.eqb_refl, Hcols.
  cbn [Nat.eqb negb orb]. rewrite Hd, Hcol.
  unfold required_stype in Hty0, Hty1.
  assert (Hdiff : forall a b : SType, a <> b -> SType_eqb a b = false)
    by (intros a b Hab; destruct a, b; try reflexivity; contradiction Hab;
        reflexivity).
  destruct (dt.get_double_precision d);
    cbn [set_model_columns]; unfold_M; rewrite Hty0; cbn; rewrite Hd; cbn;
    rewrite (Hdiff _ _ Hty1); cbn; eexists; repeat split.
Qed.

(** *** The column name hashes *)

Lemma otuple_set_middle (done rest : list PyObj) (x v : PyObj) :
  otuple_set (done ++ x :: rest) (List.length done) v = done ++ v :: rest.
Proof.
  induction done as [| a done IH]; cbn; [reflexivity | now rewrite IH].
Qed.

Lemma colname_hashes_fill_split (count : nat) :
  forall (hd hr : list N) (done todo rest : list PyObj),
    List.length hd = List.length done ->
    List.length todo = count ->
    (count <= List.length hr)%nat ->
    colname_hashes_fill (hd ++ hr) (done ++ todo ++ rest) (List.length done) count
    = Returns (done ++ map (fun h => PyInt (Z.of_N h)) (firstn count hr) ++ rest).
Proof.
  induction count as [| count IH]; intros hd hr done todo rest Hhd Htodo Hhr.
  - destruct todo; [reflexivity | discriminate].
  - destruct todo as [| x todo]; [discriminate |].
    destruct hr as [| h hr]; [cbn in Hhr; lia |].
    cbn [colname_hashes_fill].
    rewrite nth_error_app2 by lia. rewrite <- Hhd, Nat.sub_diag. cbn [nth_error].
    rewrite Hhd. change ((x :: todo) ++ rest) with (x :: todo ++ rest).
    rewrite otuple_set_middle.
    specialize (IH (hd ++ [h]) hr (done ++ [PyInt (Z.of_N h)]) todo rest).
    rewrite !length_app, <- !app_assoc in IH. cbn in IH.
    rewrite !Nat.add_1_r in IH. rewrite IH.
    + reflexivity.
    + lia.
    + now injection Htodo.
    + cbn in Hhr. lia.
Qed.

(** X9. On a trained model whose engine keeps at least one hash for each
    recorded training column, [get_colname_hashes] returns the tuple of
    the first recorded-count hashes, in order, as Python ints. *)
Theorem get_colname_hashes_value (self : Ftrl) (d : dt.Ftrl) :
  dtft self = Some d ->
  dt.is_trained d = true ->
  (dt.get_dt_X_ncols d <= List.length (dt.get_colnames_hashes d))%nat ->
  get_colname_hashes self
  = (Returns (PyTuple (map (fun h => PyInt (Z.of_N h))
                           (firstn (dt.get_dt_X_ncols d)
                                   (dt.get_colnames_hashes d)))),
     self).
Proof.
  intros Hd Ht Hlen. unfold get_colname_hashes. unfold_M.
  rewrite Hd, Ht. cbv beta iota. rewrite ?Hd. cbv beta iota. rewrite ?Hd.
  cbv beta iota.
  pose proof (colname_hashes_fill_split (dt.get_dt_X_ncols d) []
                (dt.get_colnames_hashes d) []
                (otuple_new (dt.get_dt_X_ncols d)) [] eq_refl) as Hfill.
  cbn [app List.length] in Hfill. rewrite !app_nil_r in Hfill.
  rewrite Hfill; [reflexivity | apply repeat_length | exact Hlen].
Qed.

(** *** Setting the hyperparameters *)

Lemma check_positive_double_ok (q : Q) (o : PyObj) :
  0 < q -> check_positive q o = Returns tt.
Proof.
  intros Hq. unfold check_positive. cbn [leb0 Numeric_double].
  destruct (Qle_bool q 0) eqn:Hle; [| reflexivity].
  apply Qle_bool_iff in Hle. exfalso. exact (Qlt_not_le _ _ Hq Hle).
Qed.

Lemma check_not_negative_double_ok (q : Q) (o : PyObj) :
  0 <= q -> check_not_negative q o = Returns tt.
Proof.
  intros Hq. unfold check_not_negative. cbn [ltb0 Numeric_double].
  apply Qle_bool_iff in Hq. rewrite Hq. reflexivity.
Qed.

Lemma check_not_negative_double_throws (q : Q) (o : PyObj) :
  q < 0 -> check_not_negative q o = Throws (ValueError [Txt "Value cannot be negative"]).
Proof.
  intros Hq. unfold check_not_negative. cbn [ltb0 Numeric_double].
  destruct (Qle_bool 0 q) eqn:Hle; [| reflexivity].
  apply Qle_bool_iff in Hle. exfalso. exact (Qlt_not_le _ _ Hq Hle).
Qed.

Lemma to_size_t_of_N (n : N) :
  (Z.of_N n < 2 ^ 63)%Z -> to_size_t (PyInt (Z.of_N n)) = Returns n.
Proof.
  intros Hn. unfold to_size_t.
  assert (Hneg : (Z.of_N n <? 0)%Z = false) by (apply Z.ltb_ge; apply N2Z.is_nonneg).
  assert (Hbig : (2 ^ 63 <=? Z.of_N n)%Z = false) by (apply Z.leb_gt; exact Hn).
  rewrite Hneg, Hbig, N2Z.id. reflexivity.
Qed.

Lemma set_alpha_ok (self : Ftrl) (d : dt.Ftrl) (q : Q) :
  dtft self = Some d -> 0 < q ->
  set_alpha (PyFloat q) self
  = (Returns tt,
     mkFtrl (Some (dt.set_alpha q d)) (labels self) (reg_type self)
            (feature_names self)).
Proof.
  intros Hd Hq. unfold set_alpha. unfold_M. cbn [to_double].
  rewrite (check_positive_double_ok q _ Hq), Hd. reflexivity.
Qed.

Lemma set_beta_ok (self : Ftrl) (d : dt.Ftrl) (q : Q) :
  dtft self = Some d -> 0 <= q ->
  set_beta (PyFloat q) self
  = (Returns tt,
     mkFtrl (Some (dt.set_beta q d)) (labels self) (reg_type self)
            (feature_names self)).
Proof.
  intros Hd Hq. unfold set_beta. unfold_M. cbn [to_double].
  rewrite (check_not_negative_double_ok q _ Hq), Hd. reflexivity.
Qed.

Lemma set_lambda1_ok (self : Ftrl) (d : dt.Ftrl) (q : Q) :
  dtft self = Some d -> 0 <= q ->
  set_lambda1 (PyFloat q) self
  = (Returns tt,
     mkFtrl (Some (dt.set_lambda1 q d)) (labels self) (reg_type self)
            (feature_names self)).
Proof.
  intros Hd Hq. unfold set_lambda1. unfold_M. cbn [to_double].
  rewrite (check_not_negative_double_ok q _ Hq), Hd. reflexivity.
Qed.

Lemma set_lambda2_ok (self : Ftrl) (d : dt.Ftrl) (q : Q) :
  dtft self = Some d -> 0 <= q ->
  set_lambda2 (PyFloat q) self
  = (Returns tt,
     mkFtrl (Some (dt.set_lambda2 q d)) (labels self) (reg_type self)
            (feature_names self)).
Proof.
  intros Hd Hq. unfold set_lambda2. unfold_M. cbn [to_double].
  rewrite (check_not_negative_double_ok q _ Hq), Hd. reflexivity.
Qed.

Lemma set_nbins_ok (self : Ftrl) (d : dt.Ftrl) (n : N) :
  dtft self = Some d -> dt.is_trained d = false ->
  (0 < n)%N -> (Z.of_N n < 2 ^ 63)%Z ->
  set_nbins (PyInt (Z.of_N n)) self
  = (Returns tt,
     mkFtrl (Some (dt.set_nbins n d)) (labels self) (reg_type self)
            (feature_names self)).
Proof.
  intros Hd Ht Hpos Hn. unfold set_nbins, check_positive. unfold_M.
  rewrite Hd, Ht, (to_size_t_of_N n Hn). cbn [leb0 Numeric_uint64].
  assert (Hp : (n <=? 0)%N = false) by (apply N.leb_gt; exact Hpos).
  rewrite Hp, Hd. reflexivity.
Qed.

Lemma set_nepochs_ok (self : Ftrl) (d : dt.Ftrl) (n : N) :
  dtft self = Some d -> (Z.of_N n < 2 ^ 63)%Z ->
  set_nepochs (PyInt (Z.of_N n)) self
  = (Returns tt,
     mkFtrl (Some (dt.set_nepochs n d)) (labels self) (reg_type self)
            (feature_names self)).
Proof.
  intros Hd Hn. unfold set_nepochs. unfold_M.
  rewrite (to_size_t_of_N n Hn), Hd. reflexivity.
Qed.

Lemma set_interactions_ok (self : Ftrl) (d : dt.Ftrl) (b : bool) :
  dtft self = Some d ->
  set_interactions (PyBool b) self
  = (Returns tt,
     mkFtrl (Some (dt.set_interactions b d)) (labels self) (reg_type self)
            (feature_names self)).
Proof.
  intros Hd. unfold set_interactions. unfold_M. cbn [to_bool_strict].
  rewrite Hd. reflexivity.
Qed.

Lemma set_double_precision_ok (self : Ftrl) (d : dt.Ftrl) (b : bool) :
  dtft self = Some d ->
  set_double_precision (PyBool b) self
  = (Returns tt,
     mkFtrl (Some (dt.set_interactions b d)) (labels self) (reg_type self)
            (feature_names self)).
Proof.
  intros Hd. unfold set_double_precision. unfold_M. cbn [to_bool_strict].
  rewrite Hd. reflexivity.
Qed.

(** X10. The setters refuse what their validator refuses and then leave the
    object unchanged: alpha that is zero or negative; beta, lambda1 and
    lambda2 that are negative.  No engine is needed for the refusal: the
    value is checked before the engine is touched. *)
Theorem setters_refuse_invalid (self : Ftrl) (q : Q) :
  (q <= 0 ->
   exists msg, set_alpha (PyFloat q) self = (Throws (ValueError msg), self))
  /\ (q < 0 ->
      (exists msg, set_beta (PyFloat q) self = (Throws (ValueError msg), self))
      /\ (exists msg,
            set_lambda1 (PyFloat q) self = (Throws (ValueError msg), self))
      /\ (exists msg,
            set_lambda2 (PyFloat q) self = (Throws (ValueError msg), self))).
Proof.
  split.
  - intros Hq. apply Qle_bool_iff in Hq.
    unfold set_alpha, check_positive. unfold_M. cbn [to_double leb0 Numeric_double].
    rewrite Hq. eexists. reflexivity.
  - intros Hq.
    repeat split; eexists;
      unfold set_beta, set_lambda1, set_lambda2; unfold_M; cbn [to_double];
      rewrite (check_not_negative_double_throws q _ Hq); reflexivity.
Qed.

(** X11. On any constructed model, trained or not, alpha, beta, lambda1,
    lambda2, nepochs and interactions read back the valid value that was
    just set: only the nbins setter looks at the training status.  Zero
    is a valid beta, lambda1, lambda2 and nepochs. *)
Theorem setters_then_getters
        (self : Ftrl) (d : dt.Ftrl) (a b : Q) (e : N) (i : bool) :
  dtft self = Some d ->
  0 < a -> 0 <= b -> (Z.of_N e < 2 ^ 63)%Z ->
  fst (bind (set_alpha (PyFloat a)) (fun _ => get_alpha) self)
  = Returns (PyFloat a)
  /\ fst (bind (set_beta (PyFloat b)) (fun _ => get_beta) self)
     = Returns (PyFloat b)
  /\ fst (bind (set_lambda1 (PyFloat b)) (fun _ => get_lambda1) self)
     = Returns (PyFloat b)
  /\ fst (bind (set_lambda2 (PyFloat b)) (fun _ => get_lambda2) self)
     = Returns (PyFloat b)
  /\ fst (bind (set_nepochs (PyInt (Z.of_N e))) (fun _ => get_nepochs) self)
     = Returns (PyInt (Z.of_N e))
  /\ fst (bind (set_interactions (PyBool i)) (fun _ => get_interactions) self)
     = Returns (PyBool i).
Proof.
  intros Hd Ha Hb He. unfold bind.
  rewrite (set_alpha_ok self d a Hd Ha), (set_beta_ok self d b Hd Hb),
    (set_lambda1_ok self d b Hd Hb), (set_lambda2_ok self d b Hd Hb),
    (set_nepochs_ok self d e Hd He), (set_interactions_ok self d i Hd).
  repeat split.
Qed.

(** *** The parameter tuples *)

Lemma bind_returns {A B : Type} (c : M A) (k : A -> M B)
      (self self' : Ftrl) (a : A) :
  c self = (Returns a, self') -> bind c k self = k a self'.
Proof. intros H. unfold bind. rewrite H. reflexivity. Qed.

Lemma bind_throws {A B : Type} (c : M A) (k : A -> M B)
      (self self' : Ftrl) (e : Exception) :
  c self = (Throws e, self') -> bind c k self = (Throws e, self').
Proof. intros H. unfold bind. rewrite H. reflexivity. Qed.

Lemma set_nbins_trained (self : Ftrl) (d : dt.Ftrl) (v : PyObj) :
  dtft self = Some d -> dt.is_trained d = true ->
  set_nbins v self
  = (Throws (ValueError [Txt "Cannot set `nbins` for a trained model, ";
                         Txt "reset this model or create a new one"]),
     self).
Proof.
  intros Hd Ht. unfold set_nbins. unfold_M. rewrite Hd, Ht. reflexivity.
Qed.

(** Reads the element or the field that a setter is given, then closes
    the step with the lemma of that setter. *)
Ltac setter_step :=
  cbv beta iota zeta
      delta [bind lift get_attr lookup_field String.eqb Ascii.eqb Bool.eqb
             otuple_get nth_error];
  first [ eapply set_alpha_ok | eapply set_beta_ok | eapply set_lambda1_ok
        | eapply set_lambda2_ok | eapply set_nbins_ok | eapply set_nepochs_ok
        | eapply set_interactions_ok | eapply set_double_precision_ok ];
  first [ eassumption | reflexivity ].

Lemma set_params_tuple_stores
      (self : Ftrl) (d : dt.Ftrl) (a b l1 l2 : Q) (n e : N) (i dp : bool) :
  dtft self = Some d ->
  dt.is_trained d = false ->
  0 < a -> 0 <= b -> 0 <= l1 -> 0 <= l2 ->
  (0 < n)%N -> (Z.of_N n < 2 ^ 63)%Z -> (Z.of_N e < 2 ^ 63)%Z ->
  set_params_tuple
    (PyTuple [PyFloat a; PyFloat b; PyFloat l1; PyFloat l2; PyInt (Z.of_N n);
              PyInt (Z.of_N e); PyBool i; PyBool dp]) self
  = (Returns tt,
     mkFtrl (Some (dt.with_params
                     (dt.mkFtrlParams a b l1 l2 n e dp (dt.get_double_precision d))
                     d))
            (labels self) (reg_type self) (feature_names self)).
Proof.
  intros Hd Ht Ha Hb Hl1 Hl2 Hn Hn63 He63.
  destruct self as [p l r fn]. cbn in Hd. subst p.
  unfold set_params_tuple.
  erewrite bind_returns by reflexivity. cbn [List.length Nat.eqb negb].
  erewrite bind_returns by setter_step.
  erewrite bind_returns by setter_step.
  erewrite bind_returns by setter_step.
  erewrite bind_returns by setter_step.
  erewrite bind_returns by setter_step.
  erewrite bind_returns by setter_step.
  erewrite bind_returns by setter_step.
  erewrite bind_returns by reflexivity.
  cbn [labels reg_type feature_names].
  erewrite set_double_precision_ok by reflexivity.
  destruct d as [T [a0 b0 l10 l20 n0 e0 i0 dp0] m fi tr nc hs]. reflexivity.
Qed.

(** X12. [set_params_tuple] on an untrained model, with eight valid elements:
    the first six are stored; element 6 is stored as interactions and is
    then overwritten by element 7, which was meant for double_precision;
    the double_precision flag is as before. *)
Theorem set_params_tuple_last_wins
        (self : Ftrl) (d : dt.Ftrl) (a b l1 l2 : Q) (n e : N) (i dp : bool) :
  dtft self = Some d ->
  dt.is_trained d = false ->
  0 < a -> 0 <= b -> 0 <= l1 -> 0 <= l2 ->
  (0 < n)%N -> (Z.of_N n < 2 ^ 63)%Z -> (Z.of_N e < 2 ^ 63)%Z ->
  set_params_tuple
    (PyTuple [PyFloat a; PyFloat b; PyFloat l1; PyFloat l2; PyInt (Z.of_N n);
              PyInt (Z.of_N e); PyBool i; PyBool dp]) self
  = (Returns tt,
     mkFtrl (Some (dt.with_params
                     (dt.mkFtrlParams a b l1 l2 n e dp (dt.get_double_precision d))
                     d))
            (labels self) (reg_type self) (feature_names self))
  /\ fst (bind (set_params_tuple
                  (PyTuple [PyFloat a; PyFloat b; PyFloat l1; PyFloat l2;
                            PyInt (Z.of_N n); PyInt (Z.of_N e); PyBool i;
                            PyBool dp]))
               (fun _ => get_interactions) self)
     = Returns (PyBool dp).
Proof.
  intros Hd Ht Ha Hb Hl1 Hl2 Hn Hn63 He63.
  pose proof (set_params_tuple_stores self d a b l1 l2 n e i dp
                Hd Ht Ha Hb Hl1 Hl2 Hn Hn63 He63) as Hset.
  split; [exact Hset |].
  unfold bind. rewrite Hset. reflexivity.
Qed.

(** X13. Writing back the parameters that were just read, [m.params = m.params].
    On an untrained model with valid hyperparameters the call returns
    and interactions has become the value of double_precision, all the
    rest being as before.  On a trained model the call throws the nbins
    error and the object is as before. *)
Theorem params_write_back (self : Ftrl) (d : dt.Ftrl) :
  dtft self = Some d ->
  0 < dt.get_alpha d -> 0 <= dt.get_beta d ->
  0 <= dt.get_lambda1 d -> 0 <= dt.get_lambda2 d ->
  (0 < dt.get_nbins d)%N -> (Z.of_N (dt.get_nbins d) < 2 ^ 63)%Z ->
  (Z.of_N (dt.get_nepochs d) < 2 ^ 63)%Z ->
  (dt.is_trained d = false ->
   bind get_params_namedtuple set_params_namedtuple self
   = (Returns tt,
      mkFtrl (Some (dt.set_interactions (dt.get_double_precision d) d))
             (labels self) (reg_type self) (feature_names self)))
  /\ (dt.is_trained d = true ->
      bind get_params_namedtuple set_params_namedtuple self
      = (Throws (ValueError [Txt "Cannot set `nbins` for a trained model, ";
                             Txt "reset this model or create a new one"]),
         self)).
Proof.
  intros Hd Ha Hb Hl1 Hl2 Hn Hn63 He63.
  destruct self as [p l r fn]. cbn in Hd. subst p.
  split; intros Ht;
    erewrite bind_returns by (apply get_params_namedtuple_value; reflexivity);
    unfold set_params_namedtuple.
  - erewrite bind_returns by setter_step.
    erewrite bind_returns by setter_step.
    erewrite bind_returns by setter_step.
    erewrite bind_returns by setter_step.
    erewrite bind_returns by setter_step.
    erewrite bind_returns by setter_step.
    erewrite bind_returns by setter_step.
    erewrite bind_returns by reflexivity.
    cbn [labels reg_type feature_names].
    erewrite set_double_precision_ok by reflexivity.
    destruct d as [T [a0 b0 l10 l20 n0 e0 i0 dp0] m fi tr nc hs]. reflexivity.
  - erewrite bind_returns by setter_step.
    erewrite bind_returns by setter_step.
    erewrite bind_returns by setter_step.
    erewrite bind_returns by setter_step.
    erewrite bind_throws;
      [| cbv beta iota zeta
             delta [bind lift get_attr lookup_field String.eqb Ascii.eqb
                    Bool.eqb];
         eapply set_nbins_trained; [reflexivity | exact Ht] ].
    destruct d as [T [a0 b0 l10 l20 n0 e0 i0 dp0] m fi tr nc hs]. reflexivity.
Qed.

(** *** More on construction *)

(** X14. A parameter bundle together with any individual hyperparameter is a
    TypeError, raised before anything is converted; the object is left
    without an engine. *)
Theorem init_refuses_bundle_with_individual (args : PKArgs) (self : Ftrl) :
  is_none_or_undefined (arg args 0) = false ->
  (exists i : nat, (2 <= i <= 9)%nat /\ is_none_or_undefined (arg args i) = false) ->
  exists msg : list piece,
    m__init__ args self
    = (Throws (TypeError msg),
       mkFtrl None (labels self) (reg_type self) (feature_names self)).
Proof.
  intros H0 (i & Hi & Hdef).
  unfold m__init__. unfold_M. cbv zeta. rewrite H0. cbn [negb].
  destruct (is_none_or_undefined (arg args 2)) eqn:E2; [| eexists; reflexivity].
  destruct (is_none_or_undefined (arg args 3)) eqn:E3; [| eexists; reflexivity].
  destruct (is_none_or_undefined (arg args 4)) eqn:E4; [| eexists; reflexivity].
  destruct (is_none_or_undefined (arg args 5)) eqn:E5; [| eexists; reflexivity].
  destruct (is_none_or_undefined (arg args 6)) eqn:E6; [| eexists; reflexivity].
  destruct (is_none_or_undefined (arg args 7)) eqn:E7; [| eexists; reflexivity].
  destruct (is_none_or_undefined (arg args 8)) eqn:E8; [| eexists; reflexivity].
  destruct (is_none_or_undefined (arg args 9)) eqn:E9; [| eexists; reflexivity].
  exfalso.
  assert (Hcases : (i = 2 \/ i = 3 \/ i = 4 \/ i = 5 \/ i = 6 \/ i = 7
                    \/ i = 8 \/ i = 9)%nat) by lia.
  repeat (destruct Hcases as [-> | Hcases]; [congruence |]). subst i. congruence.
Qed.

Lemma is_lift_ret {A : Type} (a : A) : is_lift (ret a).
Proof. exists (Returns a). split; [discriminate | reflexivity]. Qed.

Lemma is_lift_throw {A : Type} (e : Exception) : is_lift (@throw A e).
Proof. exists (Throws e). split; [discriminate | reflexivity]. Qed.

Lemma is_lift_lift {A : Type} (o : Outcome A) : o <> Undefined -> is_lift (lift o).
Proof. intros Ho. exists o. split; [exact Ho | reflexivity]. Qed.

Lemma is_lift_bind {A B : Type} (c : M A) (k : A -> M B) :
  is_lift c -> (forall a : A, is_lift (k a)) -> is_lift (bind c k).
Proof.
  intros (o & Ho & Hc) Hk. destruct o as [a | e |].
  - destruct (Hk a) as (o' & Ho' & Hka). exists o'. split; [exact Ho' |].
    intros self. unfold bind. rewrite Hc. apply Hka.
  - exists (Throws e). split; [discriminate |].
    intros self. unfold bind. rewrite Hc. reflexivity.
  - contradiction.
Qed.

Lemma conversions_defined (o : PyObj) (name : string) :
  to_double o <> Undefined /\ to_size_t o <> Undefined
  /\ to_bool_strict o <> Undefined /\ to_otuple o <> Undefined
  /\ get_attr o name <> Undefined.
Proof.
  repeat split; destruct o;
    cbv beta iota delta [to_double to_size_t to_bool_strict to_otuple get_attr];
    try discriminate.
  - destruct (z <? 0)%Z; [discriminate |].
    destruct (2 ^ 63 <=? z)%Z; discriminate.
  - destruct (lookup_field name fields); discriminate.
Qed.

Lemma checks_defined {T : Type} `{Numeric T} (v : T) (o : PyObj) :
  check_positive v o <> Undefined /\ check_not_negative v o <> Undefined.
Proof.
  unfold check_positive, check_not_negative.
  split; [destruct (leb0 v) | destruct (ltb0 v)]; discriminate.
Qed.

Ltac is_lift_step :=
  first
    [ apply is_lift_ret | apply is_lift_throw
    | apply is_lift_lift;
      first [ apply (proj1 (conversions_defined _ ""))
            | apply (proj1 (proj2 (conversions_defined _ "")))
            | apply (proj1 (proj2 (proj2 (conversions_defined _ ""))))
            | apply (proj1 (proj2 (proj2 (proj2 (conversions_defined _ "")))))
            | apply (proj2 (proj2 (proj2 (proj2 (conversions_defined _ _)))))
            | apply (proj1 (checks_defined _ _))
            | apply (proj2 (checks_defined _ _)) ]
    | apply is_lift_bind; [| intro]
    | match goal with
      | |- is_lift (if ?b then _ else _) => destruct b
      end ].

(** X15. What [__init__] can come to, whatever its arguments.  Either it
    returns, and the object then has a new, untrained engine whose
    instantiation is [double] exactly when the double_precision flag of
    its parameters is set, a label list that is not empty, and the
    regression type NONE.  Or it throws, and the object is left without
    an engine, its other members as before. *)
Theorem init_outcome (args : PKArgs) (self : Ftrl) :
  (exists (p : dt.FtrlParams) (l : list PyObj),
     l <> []
     /\ m__init__ args self
        = (Returns tt,
           mkFtrl (Some (dt.new (if dt.double_precision p then c_double
                                 else c_float) p))
                  (Some l) NONE (feature_names self)))
  \/ (exists e : Exception,
        m__init__ args self
        = (Throws e,
           mkFtrl None (labels self) (reg_type self) (feature_names self))).
Proof.
  unfold m__init__. cbv zeta.
  erewrite bind_returns by reflexivity.
  match goal with
  | |- context [bind ?c ?k ?s] =>
      assert (Hlift : is_lift c) by (repeat is_lift_step)
  end.
  destruct Hlift as (o & Ho & Hc).
  destruct o as [p | e |];
    [| right; exists e; erewrite bind_throws by apply Hc; reflexivity
     | contradiction].
  erewrite bind_returns by apply Hc.
  match goal with
  | |- context [bind ?c ?k ?s] =>
      assert (Hl : (exists l : list PyObj,
                      l <> []
                      /\ c s = (Returns tt,
                                mkFtrl None (Some l) (reg_type self)
                                       (feature_names self)))
                   \/ (exists e : Exception, c s = (Throws e, s)))
  end.
  { destruct (negb (is_none_or_undefined (arg args 1)));
      match goal with
      | |- context [set_labels ?o ?s] =>
          destruct (set_labels_outcome o s) as [(l & Hne & Hset & _) | Hthrow]
      end;
      [ left; exists l; split; [exact Hne | exact Hset] | right; exact Hthrow
      | left; exists l; split; [exact Hne | exact Hset] | right; exact Hthrow ]. }
  destruct Hl as [(l & Hne & Hset) | (e & Hthrow)].
  - left. exists p, l. split; [exact Hne |].
    unfold bind. rewrite Hset. cbn [labels reg_type feature_names].
    destruct (dt.double_precision p); reflexivity.
  - right. exists e. unfold bind. rewrite Hthrow. reflexivity.
Qed.

(** *** What the methods leave alone *)

Lemma keeps_set_model_columns {B : Type} (f : Ftrl -> B)
      (t : DataTable) (st : SType) (hn : Column -> Outcome bool)
      (cols : list Column) :
  dtft_blind f -> forall i : nat, keeps f (set_model_columns t st hn i cols).
Proof.
  intros Hf. induction cols as [| c rest IH]; intros i; cbn [set_model_columns].
  - apply keeps_ret.
  - cbv zeta. repeat keeps_step. apply IH.
Qed.

Lemma keeps_setters {B : Type} (f : Ftrl -> B) (o : PyObj) :
  dtft_blind f ->
  keeps f (set_alpha o) /\ keeps f (set_beta o) /\ keeps f (set_lambda1 o)
  /\ keeps f (set_lambda2 o) /\ keeps f (set_nbins o) /\ keeps f (set_nepochs o)
  /\ keeps f (set_interactions o) /\ keeps f (set_double_precision o).
Proof.
  intros Hf.
  repeat split;
    unfold set_alpha, set_beta, set_lambda1, set_lambda2, set_nbins,
      set_nepochs, set_interactions, set_double_precision;
    keeps_auto.
Qed.

Ltac keeps_setter :=
  first [ refine (proj1 (keeps_setters _ _ _))
        | refine (proj1 (proj2 (keeps_setters _ _ _)))
        | refine (proj1 (proj2 (proj2 (keeps_setters _ _ _))))
        | refine (proj1 (proj2 (proj2 (proj2 (keeps_setters _ _ _)))))
        | refine (proj1 (proj2 (proj2 (proj2 (proj2 (keeps_setters _ _ _))))))
        | refine (proj1 (proj2 (proj2 (proj2 (proj2 (proj2
                    (keeps_setters _ _ _)))))))
        | refine (proj1 (proj2 (proj2 (proj2 (proj2 (proj2 (proj2
                    (keeps_setters _ _ _))))))))
        | refine (proj2 (proj2 (proj2 (proj2 (proj2 (proj2 (proj2
                    (keeps_setters _ _ _)))))))) ];
  blind.

Lemma keeps_set_params {B : Type} (f : Ftrl -> B) (o : PyObj) :
  dtft_blind f ->
  keeps f (set_params_tuple o) /\ keeps f (set_params_namedtuple o).
Proof.
  intros Hf. split; unfold set_params_tuple, set_params_namedtuple;
    cbv zeta; repeat first [ keeps_setter | keeps_step ].
Qed.

Lemma keeps_fit {B : Type} (f : Ftrl -> B) (args : PKArgs) :
  dtft_blind f -> keeps f (fit args).
Proof. intros Hf. unfold fit. keeps_auto. Qed.

Lemma keeps_predict {B : Type} (f : Ftrl -> B) (args : PKArgs) :
  keeps f (predict args).
Proof. unfold predict. keeps_auto. Qed.

Lemma keeps_set_model_frame {B : Type} (f : Ftrl -> B) (o : PyObj) :
  dtft_blind f -> is_none o = false -> keeps f (set_model o).
Proof.
  intros Hf Ho. unfold set_model. rewrite Ho.
  repeat first [ apply keeps_set_model_columns; assumption | keeps_step ].
Qed.

(** [set_model] never touches the labels and the feature names; the
    regression type it leaves as it is or sets to NONE. *)
Lemma set_model_frame (o : PyObj) (self : Ftrl) :
  labels (snd (set_model o self)) = labels self
  /\ feature_names (snd (set_model o self)) = feature_names self
  /\ (reg_type (snd (set_model o self)) = reg_type self
      \/ reg_type (snd (set_model o self)) = NONE).
Proof.
  destruct (is_none o) eqn:Ho.
  - unfold set_model. rewrite Ho. unfold bind, assign_reg_type, dtft_do. cbn.
    destruct (dtft self); cbn; auto.
  - repeat split;
      [ apply (keeps_set_model_frame labels o labels_blind Ho)
      | apply (keeps_set_model_frame feature_names o feature_names_blind Ho)
      | left; apply (keeps_set_model_frame reg_type o reg_type_blind Ho) ].
Qed.

(** X16. From construction on, no method other than [__setstate__] ever
    records a regression type: when it is NONE it is still NONE after
    [fit], [predict], [reset], [set_labels], [set_model], the
    hyperparameter setters and the [params] setter, whatever their
    arguments and their outcome. *)
Theorem reg_type_stays_none (self : Ftrl) (args : PKArgs) (o : PyObj) :
  reg_type self = NONE ->
  reg_type (snd (fit args self)) = NONE
  /\ reg_type (snd (predict args self)) = NONE
  /\ reg_type (snd (reset args self)) = NONE
  /\ reg_type (snd (set_labels o self)) = NONE
  /\ reg_type (snd (set_model o self)) = NONE
  /\ reg_type (snd (set_nbins o self)) = NONE
  /\ reg_type (snd (set_params_namedtuple o self)) = NONE
  /\ reg_type (snd (set_alpha o self)) = NONE
  /\ reg_type (snd (set_beta o self)) = NONE
  /\ reg_type (snd (set_lambda1 o self)) = NONE
  /\ reg_type (snd (set_lambda2 o self)) = NONE
  /\ reg_type (snd (set_nepochs o self)) = NONE
  /\ reg_type (snd (set_interactions o self)) = NONE.
Proof.
  pose proof (keeps_setters reg_type o reg_type_blind)
    as (Ka & Kb & Kl1 & Kl2 & _ & Kne & Ki & _).
  intros Hnone. repeat split.
  - rewrite (keeps_fit reg_type args reg_type_blind self). exact Hnone.
  - rewrite (keeps_predict reg_type args self). exact Hnone.
  - unfold reset, bind, assign_reg_type, dtft_do. cbn.
    destruct (dtft self); reflexivity.
  - destruct (set_labels_outcome o self) as [(l & _ & Hset & _) | (e & Hthrow)].
    + rewrite Hset. exact Hnone.
    + rewrite Hthrow. exact Hnone.
  - destruct (set_model_frame o self) as (_ & _ & [Hsame | Hn]);
      [rewrite Hsame; exact Hnone | exact Hn].
  - rewrite (proj1 (proj2 (proj2 (proj2 (proj2
               (keeps_setters reg_type o reg_type_blind))))) self).
    exact Hnone.
  - rewrite (proj2 (keeps_set_params reg_type o reg_type_blind) self).
    exact Hnone.
  - rewrite (Ka self). exact Hnone.
  - rewrite (Kb self). exact Hnone.
  - rewrite (Kl1 self). exact Hnone.
  - rewrite (Kl2 self). exact Hnone.
  - rewrite (Kne self). exact Hnone.
  - rewrite (Ki self). exact Hnone.
Qed.

(** *** More on unpickling *)

Lemma keeps_labels_set_model (o : PyObj) : keeps labels (set_model o).
Proof. intros self. apply set_model_frame. Qed.

Lemma keeps_feature_names_set_model (o : PyObj) :
  keeps feature_names (set_model o).
Proof. intros self. apply set_model_frame. Qed.

Lemma keeps_labels_assign_reg_type (v : RegType) :
  keeps labels (assign_reg_type v).
Proof. intros self. reflexivity. Qed.

Lemma keeps_feature_names_assign_reg_type (v : RegType) :
  keeps feature_names (assign_reg_type v).
Proof. intros self. reflexivity. Qed.

Ltac keeps_unpickle :=
  cbv beta zeta;
  repeat first
    [ apply keeps_labels_set_model | apply keeps_feature_names_set_model
    | apply keeps_labels_assign_reg_type
    | apply keeps_feature_names_assign_reg_type
    | refine (proj1 (keeps_set_params _ _ _)); blind
    | keeps_step ].

(** X17. [__setstate__] releases the label list and the feature names first
    and never sets them again: whatever the state it is given and
    whatever its outcome, the object has no label list and no feature
    names afterwards. *)
Theorem setstate_drops_labels (args : PKArgs) (self : Ftrl) :
  labels (snd (m__setstate__ args self)) = None
  /\ feature_names (snd (m__setstate__ args self)) = None.
Proof.
  unfold m__setstate__. erewrite bind_returns by reflexivity.
  split.
  - match goal with
    | |- labels (snd (?c ?s)) = _ =>
        assert (H : keeps labels c) by keeps_unpickle; rewrite (H s)
    end.
    reflexivity.
  - match goal with
    | |- feature_names (snd (?c ?s)) = _ =>
        assert (H : keeps feature_names c) by keeps_unpickle; rewrite (H s)
    end.
    reflexivity.
Qed.

(** X18. When the state is not a tuple, [__setstate__] throws the conversion
    error after it has destroyed the engine: the object is left with a
    null engine, and calling [get_model], [reset] or a setter on it
    dereferences the null pointer. *)
Theorem setstate_not_a_tuple (args : PKArgs) (self : Ftrl) (e : Exception) :
  to_otuple (arg args 0) = Throws e ->
  m__setstate__ args self
  = (Throws e, mkFtrl None None (reg_type self) None)
  /\ fst (get_model (snd (m__setstate__ args self))) = Undefined
  /\ fst (reset [] (snd (m__setstate__ args self))) = Undefined
  /\ fst (set_nepochs (PyInt 1) (snd (m__setstate__ args self))) = Undefined.
Proof.
  intros Hnot.
  assert (Hset : m__setstate__ args self
                 = (Throws e, mkFtrl None None (reg_type self) None)).
  { unfold m__setstate__. erewrite bind_returns by reflexivity.
    erewrite bind_throws; [reflexivity |].
    unfold lift. rewrite Hnot. reflexivity. }
  rewrite Hset. repeat split.
Qed.

(** X19. A state written by hand with all eight parameters, no model and no
    importances is restored: the new engine is instantiated at [double]
    exactly when element 7 is set, and holds the six first parameters.
    Element 7 ends up in the interactions flag, element 6 is lost, and
    the double_precision flag of the parameters is the default one, not
    the one of the state.  The labels are gone. *)
Theorem setstate_eight_parameters
        (self : Ftrl) (a b l1 l2 : Q) (n e : N) (i dp : bool) (r : RegType) :
  0 < a -> 0 <= b -> 0 <= l1 -> 0 <= l2 ->
  (0 < n)%N -> (Z.of_N n < 2 ^ 63)%Z -> (Z.of_N e < 2 ^ 63)%Z ->
  m__setstate__
    [PyTuple [PyTuple [PyFloat a; PyFloat b; PyFloat l1; PyFloat l2;
                       PyInt (Z.of_N n); PyInt (Z.of_N e); PyBool i; PyBool dp];
              PyNone; PyNone; PyInt (RegType_to_int32 r)]] self
  = (Returns tt,
     mkFtrl (Some (dt.new (if dp then c_double else c_float)
                          (dt.mkFtrlParams a b l1 l2 n e dp
                             (dt.double_precision default_params))))
            None r None).
Proof.
  intros Ha Hb Hl1 Hl2 Hn Hn63 He63.
  unfold m__setstate__.
  destruct dp;
    do 7 (erewrite bind_returns by reflexivity);
    (erewrite bind_returns;
     [| cbv beta iota zeta delta [bind lift otuple_get nth_error];
        eapply set_params_tuple_stores; try eassumption; reflexivity ]);
    do 2 (erewrite bind_returns by reflexivity);
    destruct r; reflexivity.
Qed.

(** *** What is registered *)

(** X20. The parameter bundle [m.params] has the eight fields alpha, ...,
    double_precision.  Each of them is registered as a property of its
    own except double_precision, whose getter and setter exist but are
    not registered: it can be read and written through [params] only. *)
Theorem double_precision_not_registered (self : Ftrl) (d : dt.Ftrl) :
  dtft self = Some d ->
  exists fields : list (string * PyObj),
    get_params_namedtuple self = (Returns (PyNamedTuple fields), self)
    /\ map fst fields
       = ["alpha"; "beta"; "lambda1"; "lambda2"; "nbins"; "nepochs";
          "interactions"; "double_precision"]
    /\ filter (fun name => negb (registered name)) (map fst fields)
       = ["double_precision"]
    /\ filter (fun g => negb (has_setter g)) init_getsets
       = [ADD_GETTER "feature_importances"; ADD_GETTER "colname_hashes"].
Proof.
  intros Hd. eexists. split; [apply (get_params_namedtuple_value self d Hd) |].
  repeat split.
Qed.

End Binding.

(** *** The theorems at concrete models *)

Lemma set_nbins_trained_refused_witness :
  (forall v : PyObj,
     set_nbins v scenario_set
     = (Throws (ValueError [Txt "Cannot set `nbins` for a trained model, ";
                            Txt "reset this model or create a new one"]),
        scenario_set))
  /\ set_nbins (PyInt 8) scenario_fresh
    = (Returns tt,
       mkFtrl (Some (dt.set_nbins 8 (dt.new c_double scenario_params)))
              (Some [PyStr "target"]) NONE None).
Proof.
  split.
  - apply (proj1 (set_nbins_trained_refused scenario_set _ eq_refl)).
    reflexivity.
  - apply (proj2 (set_nbins_trained_refused scenario_fresh _ eq_refl) eq_refl 8%Z).
    split; reflexivity.
Defined.

Lemma set_double_precision_sets_interactions_witness :
  exists d' : dt.Ftrl,
    set_double_precision (PyBool true) single_fresh
    = (Returns tt, mkFtrl (Some d') (Some [PyStr "target"]) NONE None)
    /\ dt.get_double_precision d' = false
    /\ dt.get_interactions d' = true.
Proof.
  exact (set_double_precision_sets_interactions single_fresh _ true eq_refl).
Defined.

Lemma fit_rejects_bad_shapes_witness :
  exists msg : list piece,
    fit (fun _ _ d => (Returns tt, d))
        [PyFrame (Some no_rows); PyFrame (Some scenario_y)] scenario_fresh
    = (Throws (ValueError msg), scenario_fresh).
Proof.
  apply fit_rejects_bad_shapes. right; left. reflexivity.
Defined.

Lemma accessors_none_until_trained_witness :
  (get_model scenario_fresh = (Returns PyNone, scenario_fresh)
   /\ get_fi (fun t => t) scenario_fresh = (Returns PyNone, scenario_fresh)
   /\ get_colname_hashes scenario_fresh = (Returns PyNone, scenario_fresh))
  /\ (exists v1 v2 v3 : PyObj,
        get_model scenario_set = (Returns v1, scenario_set)
        /\ is_none v1 = false
        /\ get_fi (fun t => t) scenario_set = (Returns v2, scenario_set)
        /\ is_none v2 = false
        /\ get_colname_hashes scenario_set = (Returns v3, scenario_set)
        /\ is_none v3 = false).
Proof.
  split.
  - apply (proj1 (accessors_none_until_trained (fun t => t) scenario_fresh _
                    eq_refl)).
    reflexivity.
  - apply (proj2 (accessors_none_until_trained (fun t => t) scenario_set _
                    eq_refl)).
    + reflexivity.
    + apply le_n.
Defined.

Lemma set_model_scans_at_wrong_width_witness :
  holds_elements c_float FLOAT64 = false
  /\ set_model (PyFrame (Some negative_weights)) single_four
     = (Undefined,
        mkFtrl (Some (dt.set_model negative_weights
                        (dt.new c_float
                           (dt.mkFtrlParams (1 # 10) 0 0 0 4 1 false false))))
               (Some [PyStr "target"]) NONE None).
Proof.
  apply (set_model_scans_at_wrong_width single_four _ negative_weights
           (mkColumn FLOAT64 [0; 0; 0; 0]) (mkColumn FLOAT64 [0; 0; 0; -1]) []
           eq_refl eq_refl eq_refl eq_refl eq_refl eq_refl).
  simpl. intros H. inversion H.
Defined.

Lemma set_model_refuses_configured_precision_witness :
  set_model (PyFrame (Some (zero_weights FLOAT64))) scenario_fresh
  = (Throws (ValueError
       [Txt "Column "; Num 0; Txt " in the model frame should ";
        Txt "have a type of "; Ty FLOAT32;
        Txt ", whereas your "; Txt "frame has the following column type: ";
        Ty FLOAT64]),
     scenario_fresh).
Proof.
  exact (set_model_refuses_configured_precision
           scenario_fresh _ (zero_weights FLOAT64) _ _
           eq_refl eq_refl eq_refl eq_refl eq_refl).
Defined.

Lemma predict_checks_witness :
  predict (fun X _ => X) [PyFrame (Some scenario_X)] scenario_fresh
  = (Throws (ValueError [Txt "Cannot make any predictions, train or set ";
                         Txt "the model first"]),
     scenario_fresh)
  /\ predict (fun X _ => X) [PyFrame (Some scenario_X)] scenario_set
    = (Returns (PyFrame (Some scenario_X)), scenario_set).
Proof.
  split.
  - apply (proj1 (predict_checks (fun X _ => X) scenario_fresh _ scenario_X
                    eq_refl)).
    reflexivity.
  - apply (proj2 (proj2 (predict_checks (fun X _ => X) scenario_set _
                           scenario_X eq_refl))).
    + reflexivity.
    + left; reflexivity.
Defined.

(** C5, as stated, fails on the model of the scenario after a weight
    table was installed: the engine is trained, the recorded training
    column count is zero and differs from the one column of X, and
    [predict] throws nothing, whatever the prediction kernel. *)
Lemma predict_zero_ncols_counterexample :
  dtft scenario_set
  = Some (dt.set_model (zero_weights FLOAT32) (dt.new c_double scenario_params))
  /\ dt.is_trained (dt.set_model (zero_weights FLOAT32)
                                 (dt.new c_double scenario_params)) = true
  /\ dt.get_dt_X_ncols (dt.set_model (zero_weights FLOAT32)
                                     (dt.new c_double scenario_params)) = 0%nat
  /\ ncols scenario_X = 1%nat
  /\ ~ (exists (kernel : DataTable -> dt.Ftrl -> DataTable) (e : Exception),
          fst (predict kernel [PyFrame (Some scenario_X)] scenario_set)
          = Throws e).
Proof.
  repeat split. intros (kernel & e & H). discriminate H.
Qed.

Lemma getstate_not_restorable_witness :
  exists model fi r : PyObj,
    m__getstate__ (fun t => t) [] scenario_set
    = (Returns (PyTuple [PyTuple [PyFloat (1 # 10); PyFloat 1; PyFloat 0;
                                  PyFloat 0; PyInt 4; PyInt 1; PyBool false];
                         model; fi; r]),
       scenario_set)
    /\ List.length [PyFloat (1 # 10); PyFloat 1; PyFloat 0; PyFloat 0;
                    PyInt 4; PyInt 1; PyBool false] = 7%nat
    /\ fst (m__setstate__ scenario_params
              [PyTuple [PyTuple [PyFloat (1 # 10); PyFloat 1; PyFloat 0;
                                 PyFloat 0; PyInt 4; PyInt 1; PyBool false];
                        model; fi; r]] blank)
       = Undefined
    /\ (forall s : Ftrl,
          set_params_tuple
            (PyTuple [PyFloat (1 # 10); PyFloat 1; PyFloat 0; PyFloat 0;
                      PyInt 4; PyInt 1; PyBool false]) s
          = (Throws (ValueError
               [Txt "Tuple of FTRL parameters should have 8 elements, ";
                Txt "got: "; Num 7]),
             s)).
Proof.
  exact (getstate_not_restorable scenario_params (fun t => t) scenario_set
           blank _ eq_refl).
Defined.


(** *** The further theorems at concrete models *)

Ltac q_order := first [ reflexivity | unfold Qle, Qlt; simpl; lia ].

Lemma fit_delegates_witness :
  fit (fun _ _ d => (Returns tt, d))
      [PyFrame (Some scenario_X); PyFrame (Some scenario_y)] scenario_fresh
  = (Returns tt, scenario_fresh).
Proof.
  apply (fit_delegates (fun _ _ d => (Returns tt, d)) scenario_fresh _
           scenario_X scenario_y eq_refl);
    first [ reflexivity | cbn; lia ].
Defined.

Lemma reset_untrains_witness :
  fst (bind (reset []) (fun _ => set_nbins (PyInt 8)) scenario_set) = Returns tt.
Proof.
  apply (reset_untrains [] scenario_set _ 8 eq_refl). split; reflexivity.
Defined.

Lemma set_model_no_columns_witness :
  set_model (PyFrame (Some (mkDataTable 4 []))) scenario_fresh
  = (Returns tt, scenario_fresh).
Proof.
  apply (set_model_no_columns scenario_fresh _ (mkDataTable 4 []) eq_refl);
    reflexivity.
Defined.

Lemma set_model_installs_before_failing_witness :
  exists msg : list piece,
    set_model (PyFrame (Some mixed_weights)) scenario_fresh
    = (Throws (ValueError msg),
       mkFtrl (Some (dt.set_model mixed_weights
                                  (dt.new c_double scenario_params)))
              (Some [PyStr "target"]) NONE None)
    /\ dt.is_trained (dt.set_model mixed_weights
                                   (dt.new c_double scenario_params)) = true
    /\ dt.get_model (dt.set_model mixed_weights
                                  (dt.new c_double scenario_params))
       = Some mixed_weights.
Proof.
  apply (set_model_installs_before_failing scenario_fresh _ mixed_weights
           (mkColumn FLOAT32 [0; 0; 0; 0]) (mkColumn FLOAT64 [0; 0; 0; 0]) []
           eq_refl eq_refl eq_refl eq_refl eq_refl).
  simpl. intros H. inversion H.
Defined.

Lemma get_colname_hashes_value_witness :
  get_colname_hashes scenario_trained
  = (Returns (PyTuple [PyInt 42]), scenario_trained).
Proof.
  apply (get_colname_hashes_value scenario_trained _ eq_refl eq_refl).
  simpl. lia.
Defined.

Lemma setters_refuse_invalid_witness :
  (exists msg,
     set_alpha (PyFloat 0) scenario_fresh
     = (Throws (ValueError msg), scenario_fresh))
  /\ (exists msg,
        set_beta (PyFloat (-1)) scenario_fresh
        = (Throws (ValueError msg), scenario_fresh)).
Proof.
  split.
  - apply (proj1 (setters_refuse_invalid scenario_fresh 0)). q_order.
  - apply (proj2 (setters_refuse_invalid scenario_fresh (-1))). q_order.
Defined.

Lemma setters_then_getters_witness :
  fst (bind (set_alpha (PyFloat (1 # 2))) (fun _ => get_alpha) scenario_trained)
  = Returns (PyFloat (1 # 2))
  /\ fst (bind (set_nepochs (PyInt 0)) (fun _ => get_nepochs) scenario_trained)
     = Returns (PyInt 0).
Proof.
  pose proof (setters_then_getters scenario_trained _ (1 # 2) 0 0 true eq_refl)
    as H.
  split; apply H; q_order.
Defined.

Lemma set_params_tuple_last_wins_witness :
  fst (bind (set_params_tuple
               (PyTuple [PyFloat (1 # 10); PyFloat 1; PyFloat 0; PyFloat 0;
                         PyInt 4; PyInt 1; PyBool false; PyBool true]))
            (fun _ => get_interactions) scenario_fresh)
  = Returns (PyBool true).
Proof.
  apply (set_params_tuple_last_wins scenario_fresh _ (1 # 10) 1 0 0 4 1
           false true eq_refl eq_refl); q_order.
Defined.

Lemma params_write_back_witness :
  bind get_params_namedtuple set_params_namedtuple scenario_fresh
  = (Returns tt,
     mkFtrl (Some (dt.set_interactions true (dt.new c_double scenario_params)))
            (Some [PyStr "target"]) NONE None)
  /\ bind get_params_namedtuple set_params_namedtuple scenario_trained
     = (Throws (ValueError [Txt "Cannot set `nbins` for a trained model, ";
                            Txt "reset this model or create a new one"]),
        scenario_trained).
Proof.
  split.
  - apply (params_write_back scenario_fresh _ eq_refl); q_order.
  - apply (params_write_back scenario_trained _ eq_refl); q_order.
Defined.

Lemma init_refuses_bundle_with_individual_witness :
  exists msg : list piece,
    m__init__ scenario_params [scenario_bundle; PyUndefined; PyFloat 1] blank
    = (Throws (TypeError msg), blank).
Proof.
  apply (init_refuses_bundle_with_individual scenario_params
           [scenario_bundle; PyUndefined; PyFloat 1] blank eq_refl).
  exists 2%nat. split; [lia | reflexivity].
Defined.

Lemma reg_type_stays_none_witness :
  reg_type (snd (fit (fun _ _ d => (Returns tt, d))
                     [PyFrame (Some scenario_X); PyFrame (Some scenario_y)]
                     scenario_fresh)) = NONE
  /\ reg_type (snd (set_model (PyFrame (Some (zero_weights FLOAT32)))
                              scenario_fresh)) = NONE.
Proof.
  pose proof (reg_type_stays_none (fun _ _ d => (Returns tt, d)) (fun X _ => X)
                scenario_fresh
                [PyFrame (Some scenario_X); PyFrame (Some scenario_y)]
                (PyFrame (Some (zero_weights FLOAT32))) eq_refl) as H.
  split; apply H.
Defined.

Lemma setstate_not_a_tuple_witness :
  m__setstate__ scenario_params [PyNone] scenario_set
  = (Throws (TypeError [Txt "Expected a tuple"]), mkFtrl None None NONE None)
  /\ fst (get_model (snd (m__setstate__ scenario_params [PyNone] scenario_set)))
     = Undefined.
Proof.
  pose proof (setstate_not_a_tuple scenario_params [PyNone] scenario_set _ eq_refl)
    as H.
  split; apply H.
Defined.

Lemma setstate_eight_parameters_witness :
  m__setstate__ scenario_params
    [PyTuple [PyTuple [PyFloat (1 # 10); PyFloat 1; PyFloat 0; PyFloat 0;
                       PyInt 4; PyInt 1; PyBool true; PyBool false];
              PyNone; PyNone; PyInt 0]] scenario_set
  = (Returns tt,
     mkFtrl (Some (dt.new c_float
                          (dt.mkFtrlParams (1 # 10) 1 0 0 4 1 false true)))
            None NONE None).
Proof.
  apply (setstate_eight_parameters scenario_params scenario_set
           (1 # 10) 1 0 0 4 1 true false NONE); q_order.
Defined.

Lemma double_precision_not_registered_witness :
  exists fields : list (string * PyObj),
    get_params_namedtuple scenario_fresh
    = (Returns (PyNamedTuple fields), scenario_fresh)
    /\ map fst fields
       = ["alpha"; "beta"; "lambda1"; "lambda2"; "nbins"; "nepochs";
          "interactions"; "double_precision"]
    /\ filter (fun name => negb (registered name)) (map fst fields)
       = ["double_precision"]
    /\ filter (fun g => negb (has_setter g)) init_getsets
       = [ADD_GETTER "feature_importances"; ADD_GETTER "colname_hashes"].
Proof.
  exact (double_precision_not_registered scenario_fresh _ eq_refl).
Defined.

End py.
